(** * A firewall and learning switch for one OpenFlow connection

    Shallow embedding of [poxController_firewall.py]: the class
    [LearningSwitch] with its firewall table ([AddRule], [DeleteRule],
    [CheckRule]) and its packet-in handler ([_handle_PacketIn] with the
    nested helpers [flood] and [drop]).

    Modelling conventions.
    - Python dictionaries are [gmap]s; a tuple used as a dictionary key is
      the list of the representatives of its components, so tuples of
      different length, or with a component that is not the same key, are
      different keys.
    - The objects of the controller library (MAC addresses, OpenFlow
      messages, the dpid printer) are not part of the file: MAC addresses
      are an abstract countable type with the two predicates the handler
      reads, and an OpenFlow message is the record of the attributes the
      handler assigns.
    - An [IPAddr] object is its 32-bit value under the constructor [VAddr].
      The library compares an address with an integer by value, so
      [IPAddr('0.0.0.0') == 0] holds, and the two hash alike: they are one
      dictionary key.  No other address is identified with an integer that
      occurs as a port number.
    - The arguments of the firewall methods have the kinds their callers
      pass: the switch is a string, the source is an address object or the
      integer [0], the destination is an address object, the port is an
      integer.
    - Clock readings ([time.time()], [connect_time]) are integers.
    - Methods run in a state-and-exception monad over [World], the mutable
      state they can reach: [self], the module-level [_flood_delay], and the
      records handed to the logger (the format string only). *)

From stdpp Require Import base option list strings gmap.
From Stdlib Require Import ZArith Lia.

Local Open Scope Z_scope.

(** ** Python values that occur in firewall keys *)

Inductive pyvalue :=
  | VInt (n : Z)
  | VStr (s : string)
  | VAddr (a : Z).

#[global] Instance pyvalue_eq_dec : EqDecision pyvalue.
Proof. solve_decision. Defined.

Definition pyvalue_to_sum (v : pyvalue) : Z + string + Z :=
  match v with
  | VInt n => inl (inl n)
  | VStr s => inl (inr s)
  | VAddr a => inr a
  end.

Definition pyvalue_of_sum (s : Z + string + Z) : pyvalue :=
  match s with
  | inl (inl n) => VInt n
  | inl (inr s) => VStr s
  | inr a => VAddr a
  end.

#[global] Instance pyvalue_countable : Countable pyvalue.
Proof.
  refine (inj_countable' pyvalue_to_sum pyvalue_of_sum _).
  intros []; reflexivity.
Defined.

(** An [IPAddr] object, as its 32-bit value; [dotted a b c d] is
    [IPAddr('a.b.c.d')]. *)
Definition IPAddr : Type := Z.

Definition dotted (a b c d : Z) : IPAddr :=
  Z.lor (Z.shiftl a 24) (Z.lor (Z.shiftl b 16) (Z.lor (Z.shiftl c 8) d)).

(** Python's [==] on the values above.  An integer compared with an
    address is turned into the address with that value first. *)
Definition py_eq (x y : pyvalue) : bool :=
  match x, y with
  | VInt m, VInt n => bool_decide (m = n)
  | VStr s, VStr t => bool_decide (s = t)
  | VAddr a, VAddr b => bool_decide (a = b)
  | VAddr a, VInt n | VInt n, VAddr a => bool_decide (a = n)
  | _, _ => false
  end.

(** The representative of a value as a component of a dictionary key: two
    values are the same key when they are equal and hash alike, which
    makes the address 0.0.0.0 and the integer [0] one key. *)
Definition as_key (x : pyvalue) : pyvalue :=
  match x with
  | VAddr a => if bool_decide (a = 0) then VInt 0 else VAddr a
  | _ => x
  end.

(** A tuple used as a dictionary key. *)
Abbreviation key := (list pyvalue).

(** ** OpenFlow messages, as far as the handler fills them in *)

Definition OFPP_FLOOD : Z := 65531.

Inductive ofp_action :=
  | ofp_action_output (port : Z).

Record ofp_packet_in := {
  pi_buffer_id : option Z;
  pi_data : list Z }.

(** ** Logging *)

Inductive level := DEBUG | INFO | WARNING | ERROR.

Definition LogRecord : Type := level * string.

(** ** Exceptions *)

Inductive exn :=
  | KeyError (k : key).

Inductive result (A : Type) :=
  | Ok (a : A)
  | Raise (e : exn).
Arguments Ok {A} a.
Arguments Raise {A} e.

Section LearningSwitch.

(** MAC addresses ([EthAddr] objects) and what the handler asks of them. *)
Context {EthAddr : Type} {EthAddr_eq_dec : EqDecision EthAddr}
  {EthAddr_countable : Countable EthAddr}.
Variable is_multicast : EthAddr → bool.
Variable isBridgeFiltered : EthAddr → bool.
Variable LLDP_TYPE : Z.
Variable dpid_to_str : Z → string.

(** *** Parsed packets *)

(** [packet.next] together with what [packet.find('tcp')] returns
    underneath an IPv4 header: the destination port of the TCP segment,
    if there is one. *)
Inductive payload :=
  | ipv4 (srcip dstip : IPAddr) (tcp_dstport : option Z)
  | arp (opcode : Z) (protosrc protodst : IPAddr)
  | ipv6
  | other.

Record ethernet := {
  src : EthAddr;
  dst : EthAddr;
  type : Z;
  next : payload }.

Record Event := {
  parsed : ethernet;
  port : Z;
  ofp : ofp_packet_in }.

(** [of.ofp_match.from_packet(packet, in_port)] *)
Inductive ofp_match :=
  | from_packet (packet : ethernet) (in_port : option Z).

Record ofp_packet_out := {
  po_actions : list ofp_action;
  po_data : option ofp_packet_in;
  po_buffer_id : option Z;
  po_in_port : option Z }.

Record ofp_flow_mod := {
  fm_match : option ofp_match;
  fm_idle_timeout : Z;
  fm_hard_timeout : Z;
  fm_actions : list ofp_action;
  fm_buffer_id : option Z;
  fm_data : option ofp_packet_in }.

Inductive ofp_message :=
  | PacketOut (m : ofp_packet_out)
  | FlowMod (m : ofp_flow_mod).

(** *** The mutable state *)

Record Connection := {
  dpid : Z;
  connect_time : Z;
  sent : list ofp_message }.

Record LearningSwitch := {
  connection : Connection;
  transparent : bool;
  macToPort : gmap EthAddr Z;
  firewall : gmap key bool;
  hold_down_expired : bool }.

Record World := {
  self : LearningSwitch;
  _flood_delay : Z;
  log : list LogRecord }.

Definition set_self (f : LearningSwitch → LearningSwitch) (w : World) : World :=
  {| self := f (self w); _flood_delay := _flood_delay w; log := log w |}.

Definition set_firewall (f : gmap key bool → gmap key bool) (s : LearningSwitch) :=
  {| connection := connection s; transparent := transparent s;
     macToPort := macToPort s; firewall := f (firewall s);
     hold_down_expired := hold_down_expired s |}.

Definition set_macToPort (f : gmap EthAddr Z → gmap EthAddr Z) (s : LearningSwitch) :=
  {| connection := connection s; transparent := transparent s;
     macToPort := f (macToPort s); firewall := firewall s;
     hold_down_expired := hold_down_expired s |}.

Definition set_hold_down_expired (b : bool) (s : LearningSwitch) :=
  {| connection := connection s; transparent := transparent s;
     macToPort := macToPort s; firewall := firewall s;
     hold_down_expired := b |}.

Definition set_sent (f : list ofp_message → list ofp_message) (s : LearningSwitch) :=
  {| connection := {| dpid := dpid (connection s);
                      connect_time := connect_time (connection s);
                      sent := f (sent (connection s)) |};
     transparent := transparent s;
     macToPort := macToPort s; firewall := firewall s;
     hold_down_expired := hold_down_expired s |}.

(** *** The monad *)

Definition M (A : Type) : Type := World → result A * World.

#[global] Instance M_ret : MRet M := λ A a w, (Ok a, w).

#[global] Instance M_bind : MBind M := λ A B f m w,
  match m w with
  | (Ok a, w') => f a w'
  | (Raise e, w') => (Raise e, w')
  end.

Definition raise {A} (e : exn) : M A := λ w, (Raise e, w).

(** [try: body  except KeyError: handler] *)
Definition try_except {A} (body : M A) (handler : M A) : M A := λ w,
  match body w with
  | (Ok a, w') => (Ok a, w')
  | (Raise (KeyError _), w') => handler w'
  end.

Definition get : M World := λ w, (Ok w, w).
Definition modify (f : World → World) : M unit := λ w, (Ok (), f w).

Definition eval {A} (m : M A) (w : World) : result A := fst (m w).
Definition exec {A} (m : M A) (w : World) : World := snd (m w).

Definition add_log (l : list LogRecord) (w : World) : World :=
  {| self := self w; _flood_delay := _flood_delay w; log := log w ++ l |}.

(** [log.debug(fmt, ...)], [log.info(fmt, ...)] and the like. *)
Definition log_msg (l : level) (fmt : string) : M unit :=
  modify (add_log [(l, fmt)]).

(** [self.firewall[k] = v] *)
Definition firewall_setitem (k : key) (v : bool) : M unit :=
  modify (set_self (set_firewall (insert k v))).

(** [self.firewall[k]] *)
Definition firewall_getitem (k : key) : M bool :=
  w ← get;
  match firewall (self w) !! k with
  | Some entry => mret entry
  | None => raise (KeyError k)
  end.

(** [del self.firewall[k]] *)
Definition firewall_delitem (k : key) : M unit :=
  w ← get;
  match firewall (self w) !! k with
  | Some _ => modify (set_self (set_firewall (delete k)))
  | None => raise (KeyError k)
  end.

Definition add_sent (l : list ofp_message) (w : World) : World :=
  set_self (set_sent (λ q, q ++ l)) w.

(** [self.connection.send(msg)] *)
Definition connection_send (msg : ofp_message) : M unit :=
  modify (add_sent [msg]).

(** The world after sending the messages [ls] and logging the records
    [ll]. *)
Definition emit (ls : list ofp_message) (ll : list LogRecord) (w : World)
    : World :=
  add_log ll (add_sent ls w).

(** *** The firewall table *)

(** The three shapes of key: [(dpidstr, srcipstr, dstipstr)],
    [(dpidstr, dstipstr, dstport)] and
    [(dpidstr, srcipstr, dstipstr, dstport)].  The source argument is an
    address object or the integer [0]; destination addresses are address
    objects and ports are integers. *)
Definition host_pair_key (dpidstr : string) (srcipstr : pyvalue)
    (dstipstr : IPAddr) : key :=
  [VStr dpidstr; as_key srcipstr; as_key (VAddr dstipstr)].

Definition dest_service_key (dpidstr : string) (dstipstr : IPAddr)
    (dstport : Z) : key :=
  [VStr dpidstr; as_key (VAddr dstipstr); VInt dstport].

Definition full_tuple_key (dpidstr : string) (srcipstr : pyvalue)
    (dstipstr : IPAddr) (dstport : Z) : key :=
  [VStr dpidstr; as_key srcipstr; as_key (VAddr dstipstr); VInt dstport].

(** The key [AddRule] and [DeleteRule] select for their arguments. *)
Definition rule_key (dpidstr : string) (srcipstr : pyvalue)
    (dstipstr : IPAddr) (dstport : Z) : key :=
  if bool_decide (dstport = 0) then host_pair_key dpidstr srcipstr dstipstr
  else if py_eq srcipstr (VInt 0) then dest_service_key dpidstr dstipstr dstport
  else full_tuple_key dpidstr srcipstr dstipstr dstport.

Definition AddRule (dpidstr : string) (srcipstr : pyvalue) (dstipstr : IPAddr)
    (dstport : Z) (value : bool) : M unit :=
  if bool_decide (dstport = 0) then
    firewall_setitem (host_pair_key dpidstr srcipstr dstipstr) true;;
    log_msg DEBUG "Adding firewall rule of %s -> %s in %s"
  else if py_eq srcipstr (VInt 0) then
    firewall_setitem (dest_service_key dpidstr dstipstr dstport) true;;
    log_msg DEBUG "Adding firewall rule of Dst(%s,%s) in %s"
  else
    firewall_setitem (full_tuple_key dpidstr srcipstr dstipstr dstport) true;;
    log_msg DEBUG "Adding firewall rule of %s -> %s,%s in %s".

Definition DeleteRule (dpidstr : string) (srcipstr : pyvalue)
    (dstipstr : IPAddr) (dstport : Z) : M unit :=
  try_except
    (if bool_decide (dstport = 0) then
       firewall_delitem (host_pair_key dpidstr srcipstr dstipstr);;
       log_msg DEBUG "Deleting firewall rule of %s -> %s in %s"
     else if py_eq srcipstr (VInt 0) then
       firewall_delitem (dest_service_key dpidstr dstipstr dstport);;
       log_msg DEBUG "Deleting firewall rule of Dst(%s,%s) in %s"
     else
       firewall_delitem (full_tuple_key dpidstr srcipstr dstipstr dstport);;
       log_msg DEBUG "Deleting firewall rule of %s -> %s,%s in %s")
    (log_msg ERROR "Cannot find Rule %s -> %s,%s in %s").

(** The first [try] either returns from the function ([Some entry]) or
    falls through to the second one ([None]). *)
Definition CheckRule (dpidstr : string) (srcipstr : pyvalue)
    (dstipstr : IPAddr) (dstport : Z) : M bool :=
  returned ← try_except
    (entry ← firewall_getitem (host_pair_key dpidstr srcipstr dstipstr);
     log_msg INFO "Rule (%s x->x %s) found in %s: DROP";;
     mret (Some entry))
    (log_msg DEBUG "Rule (%s -> %s) NOT found in %s: IP Rule NOT found";;
     mret None);
  match returned with
  | Some entry => mret entry
  | None =>
      try_except
        (entry ← firewall_getitem (dest_service_key dpidstr dstipstr dstport);
         log_msg INFO "Rule Dst(%s,%s)) found in %s: DROP";;
         mret entry)
        (log_msg DEBUG "Rule Dst(%s,%s) NOT found in %s: IP Rule NOT found";;
         mret false)
  end.

(** [LearningSwitch(connection, transparent)]: the attributes are created
    in the order of the source; [hold_down_expired] does not exist until
    the last statement. *)
Definition __init__ (connection : Connection) (transparent : bool) : M unit :=
  modify (set_self (λ _, {| connection := connection;
                            transparent := transparent;
                            macToPort := ∅;
                            firewall := ∅;
                            hold_down_expired := false |}));;
  AddRule (dpid_to_str (dpid connection)) (VAddr (dotted 10 0 0 1))
    (dotted 10 0 0 4) 0 true;;
  AddRule (dpid_to_str (dpid connection)) (VInt 0) (dotted 10 0 0 3) 80 true;;
  w ← get;
  modify (set_self (set_hold_down_expired (bool_decide (_flood_delay w = 0)))).

(** *** The packet-in handler *)

Definition new_ofp_packet_out : ofp_packet_out :=
  {| po_actions := []; po_data := None; po_buffer_id := None;
     po_in_port := None |}.

Definition new_ofp_flow_mod : ofp_flow_mod :=
  {| fm_match := None; fm_idle_timeout := 0; fm_hard_timeout := 0;
     fm_actions := []; fm_buffer_id := None; fm_data := None |}.

(** [flood(message)]; [time_time] is what [time.time()] returns. *)
Definition flood (event : Event) (time_time : Z) (message : option string)
    : M unit :=
  let msg := new_ofp_packet_out in
  w ← get;
  msg ←
    (if bool_decide (time_time - connect_time (connection (self w))
                     >= _flood_delay w) then
       (if negb (hold_down_expired (self w)) then
          modify (set_self (set_hold_down_expired true));;
          log_msg INFO "%s: Flood hold-down expired -- flooding"
        else mret ());;
       (match message with
        | Some m => log_msg DEBUG m
        | None => mret ()
        end);;
       mret {| po_actions := po_actions msg ++ [ofp_action_output OFPP_FLOOD];
               po_data := po_data msg; po_buffer_id := po_buffer_id msg;
               po_in_port := po_in_port msg |}
     else mret msg);
  let msg := {| po_actions := po_actions msg; po_data := Some (ofp event);
                po_buffer_id := po_buffer_id msg;
                po_in_port := po_in_port msg |} in
  let msg := {| po_actions := po_actions msg; po_data := po_data msg;
                po_buffer_id := po_buffer_id msg;
                po_in_port := Some (port event) |} in
  connection_send (PacketOut msg).

(** The hold-down test of [flood]. *)
Definition flood_elapsed (time_time : Z) (w : World) : bool :=
  bool_decide (time_time - connect_time (connection (self w)) >= _flood_delay w).

(** [drop(duration)]: [duration] is [None], a number, or a pair. *)
Definition drop (event : Event) (duration : option (Z + Z * Z)) : M unit :=
  match duration with
  | Some d =>
      let duration := match d with inl x => (x, x) | inr p => p end in
      connection_send (FlowMod
        {| fm_match := Some (from_packet (parsed event) None);
           fm_idle_timeout := fst duration;
           fm_hard_timeout := snd duration;
           fm_actions := fm_actions new_ofp_flow_mod;
           fm_buffer_id := pi_buffer_id (ofp event);
           fm_data := fm_data new_ofp_flow_mod |})
  | None =>
      match pi_buffer_id (ofp event) with
      | Some b =>
          connection_send (PacketOut
            {| po_actions := po_actions new_ofp_packet_out;
               po_data := po_data new_ofp_packet_out;
               po_buffer_id := Some b;
               po_in_port := Some (port event) |})
      | None => mret ()
      end
  end.

(** The firewall stage.  The result tells whether the handler has
    returned. *)
Definition firewall_stage (event : Event) (dpidstr : string) : M bool :=
  match next (parsed event) with
  | ipv4 srcip dstip segmant =>
      log_msg DEBUG "%i IP %s => %s";;
      match segmant with
      | Some dstport =>
          blocked ← CheckRule dpidstr (VAddr srcip) dstip dstport;
          if bool_decide (blocked = true) then drop event None;; mret true
          else mret false
      | None =>
          blocked ← CheckRule dpidstr (VAddr srcip) dstip 0;
          if bool_decide (blocked = true) then drop event None;; mret true
          else mret false
      end
  | arp _ _ _ =>
      log_msg DEBUG "%i ARP %s %s => %s";;
      mret false
  | ipv6 =>
      drop event None;; mret true
  | other => mret false
  end.

(** What the firewall stage decides, read off the packet and the table. *)
Definition firewall_verdict (event : Event) (dpidstr : string) (w : World)
    : result bool :=
  match next (parsed event) with
  | ipv4 srcip dstip segmant =>
      eval (CheckRule dpidstr (VAddr srcip) dstip (default 0 segmant)) w
  | arp _ _ _ => Ok false
  | ipv6 => Ok true
  | other => Ok false
  end.

(** Steps 2 to 6 of the algorithm. *)
Definition forwarding_stage (event : Event) (time_time : Z) : M unit :=
  let packet := parsed event in
  w ← get;
  if negb (transparent (self w))
     && (bool_decide (type packet = LLDP_TYPE) || isBridgeFiltered (dst packet))
  then drop event None
  else if is_multicast (dst packet) then flood event time_time None
  else
    match macToPort (self w) !! dst packet with
    | None => flood event time_time (Some "Port for %s unknown -- flooding")
    | Some port_ =>
        if bool_decide (port_ = port event) then
          log_msg WARNING "Same port for packet from %s -> %s on %s.%s.  Drop.";;
          drop event (Some (inl 10))
        else
          log_msg DEBUG "installing flow for %s.%i -> %s.%i";;
          connection_send (FlowMod
            {| fm_match := Some (from_packet packet (Some (port event)));
               fm_idle_timeout := 10;
               fm_hard_timeout := 30;
               fm_actions := fm_actions new_ofp_flow_mod
                               ++ [ofp_action_output port_];
               fm_buffer_id := fm_buffer_id new_ofp_flow_mod;
               fm_data := Some (ofp event) |})
    end.

Definition _handle_PacketIn (event : Event) (time_time : Z) : M unit :=
  let packet := parsed event in
  modify (set_self (set_macToPort (insert (src packet) (port event))));;
  w ← get;
  let dpidstr := dpid_to_str (dpid (connection (self w))) in
  returned ← firewall_stage event dpidstr;
  if returned : bool then mret () else forwarding_stage event time_time.

(** *** Invariant of the firewall table: every stored entry is [True] *)

Definition firewall_wf (fw : gmap key bool) : Prop :=
  map_Forall (λ _ entry, entry = true) fw.

End LearningSwitch.

(** ** A concrete session, used to run the model

    MAC addresses are 48-bit numbers; the multicast bit is the low bit of
    the first octet and the bridge-filtered range is 01-80-C2-00-00-0x. *)

Module Demo.

Definition mac_is_multicast (a : Z) : bool := Z.testbit a 40.

Definition mac_isBridgeFiltered (a : Z) : bool :=
  bool_decide (Z.shiftr a 8 = 0x0180C20000) && bool_decide (Z.land a 255 <= 15).

Definition lldp : Z := 0x88cc.

Definition dpid_str (_ : Z) : string := "s1".

Definition handle := _handle_PacketIn mac_is_multicast mac_isBridgeFiltered
                       lldp dpid_str.

Definition conn : Connection (EthAddr := Z) :=
  {| dpid := 1; connect_time := 100; sent := [] |}.

(** A world before the constructor runs, with hold-down [delay]. *)
Definition blank (delay : Z) : World (EthAddr := Z) :=
  {| self := {| connection := conn; transparent := false; macToPort := ∅;
                firewall := ∅; hold_down_expired := false |};
     _flood_delay := delay;
     log := [] |}.

(** The session right after [LearningSwitch(conn, False)]. *)
Definition fresh (delay : Z) : World (EthAddr := Z) :=
  exec (__init__ dpid_str conn false) (blank delay).

Definition h1 : IPAddr := dotted 10 0 0 1.
Definition h3 : IPAddr := dotted 10 0 0 3.
Definition h4 : IPAddr := dotted 10 0 0 4.
Definition h9 : IPAddr := dotted 10 0 0 9.

Definition macA : Z := 0x00000000000A.
Definition macB : Z := 0x00000000000B.

(** A buffered ARP frame from [macA] to [macB] arriving on port 1. *)
Definition arp_event : Event (EthAddr := Z) :=
  {| parsed := {| src := macA; dst := macB; type := 0x0806;
                  next := arp 1 h1 h4 |};
     port := 1;
     ofp := {| pi_buffer_id := Some 7; pi_data := [] |} |}.

(** A frame whose destination is its own source, so that the port learned
    for the destination is the ingress port. *)
Definition hairpin_event : Event (EthAddr := Z) :=
  {| parsed := {| src := macA; dst := macA; type := 0x0806;
                  next := arp 1 h1 h1 |};
     port := 1;
     ofp := {| pi_buffer_id := Some 8; pi_data := [] |} |}.

End Demo.

(** ** The controller component, the launcher, and sequences of calls *)

Section Controller.

Context {EthAddr : Type} {EthAddr_eq_dec : EqDecision EthAddr}
  {EthAddr_countable : Countable EthAddr}.
Variable is_multicast : EthAddr → bool.
Variable isBridgeFiltered : EthAddr → bool.
Variable LLDP_TYPE : Z.
Variable dpid_to_str : Z → string.

(** The world after statement 1 of the handler,
    [self.macToPort[packet.src] = event.port]. *)
Definition learn (event : Event (EthAddr := EthAddr))
    (w : World (EthAddr := EthAddr)) : World (EthAddr := EthAddr) :=
  set_self (set_macToPort (insert (src (parsed event)) (port event))) w.

(** What [drop()] sends: the packet-out that releases the buffer of the
    packet-in, or nothing when the packet was not buffered. *)
Definition discard_buffer (event : Event (EthAddr := EthAddr))
    : list (ofp_message (EthAddr := EthAddr)) :=
  match pi_buffer_id (ofp event) with
  | Some b => [PacketOut {| po_actions := []; po_data := None;
                            po_buffer_id := Some b;
                            po_in_port := Some (port event) |}]
  | None => []
  end.

(** The link-local test of step 2 of the handler. *)
Definition link_local_gate (event : Event (EthAddr := EthAddr))
    (w : World (EthAddr := EthAddr)) : bool :=
  negb (transparent (self w))
  && (bool_decide (type (parsed event) = LLDP_TYPE)
      || isBridgeFiltered (dst (parsed event))).

(** No key is a destination-service key for port 0.  [AddRule] stores a
    destination-service key only for a non-zero port, but the host-pair
    key of a rule for destination 0.0.0.0 is such a key as well. *)
Definition no_port_zero_service (fw : gmap key bool) : Prop :=
  ∀ d t, fw !! dest_service_key d t 0 = None.

(** [class l2_learning]: the component keeps the [transparent] flag. *)
Record l2_learning := {
  l2_transparent : bool }.

(** [l2_learning._handle_ConnectionUp(event)], with [event.connection];
    the new session becomes the [self] of the world. *)
Definition _handle_ConnectionUp (component : l2_learning)
    (connection : Connection (EthAddr := EthAddr))
    : M (EthAddr := EthAddr) unit :=
  log_msg DEBUG "Connection %s";;
  __init__ dpid_to_str connection (l2_transparent component).

Inductive launch_error :=
  | RuntimeError (msg : string).

(** [launch(transparent, hold_down)].  [hold_down] is what
    [int(str(hold_down), 10)] evaluates to, [None] when it raises;
    [transparent] is what [str_to_bool(transparent)] returns.  The global
    is assigned before the assertion is tested. *)
Definition launch (transparent : bool) (hold_down : option Z)
    (w : World (EthAddr := EthAddr))
    : (launch_error + l2_learning) * World (EthAddr := EthAddr) :=
  match hold_down with
  | None => (inl (RuntimeError "Expected hold-down to be a number"), w)
  | Some n =>
      let w' := {| self := self w; _flood_delay := n; log := log w |} in
      if bool_decide (n >= 0) then
        (inr {| l2_transparent := transparent |}, w')
      else (inl (RuntimeError "Expected hold-down to be a number"), w')
  end.

(** A call of one of the methods of a session from outside. *)
Inductive call :=
  | Call_AddRule (dpidstr : string) (srcipstr : pyvalue) (dstipstr : IPAddr)
      (dstport : Z) (value : bool)
  | Call_DeleteRule (dpidstr : string) (srcipstr : pyvalue)
      (dstipstr : IPAddr) (dstport : Z)
  | Call_CheckRule (dpidstr : string) (srcipstr : pyvalue)
      (dstipstr : IPAddr) (dstport : Z)
  | Call_PacketIn (event : Event (EthAddr := EthAddr)) (time_time : Z).

Definition run_call (c : call) : M (EthAddr := EthAddr) unit :=
  match c with
  | Call_AddRule d s t p v => AddRule d s t p v
  | Call_DeleteRule d s t p => DeleteRule d s t p
  | Call_CheckRule d s t p => CheckRule d s t p;; mret ()
  | Call_PacketIn event time_time =>
      _handle_PacketIn is_multicast isBridgeFiltered LLDP_TYPE dpid_to_str
        event time_time
  end.

Fixpoint run_calls (cs : list call) : M (EthAddr := EthAddr) unit :=
  match cs with
  | [] => mret ()
  | c :: cs => run_call c;; run_calls cs
  end.

Definition is_PacketIn (c : call) : bool :=
  match c with Call_PacketIn _ _ => true | _ => false end.

(** [AddRule] for destination 0.0.0.0 and port 0: the one call whose key
    is also a destination-service key for port 0. *)
Definition adds_null_destination (c : call) : bool :=
  match c with
  | Call_AddRule _ _ t p _ => bool_decide (t = 0) && bool_decide (p = 0)
  | _ => false
  end.

Definition writes_firewall (c : call) : bool :=
  match c with
  | Call_AddRule _ _ _ _ _ | Call_DeleteRule _ _ _ _ => true
  | _ => false
  end.

(** What a sequence of calls with at most [n] packet-ins may change in a
    session: the configuration stays, the hold-down flag is not cleared,
    the queue of the connection and the log are extended, the learning
    table keeps its addresses. *)
Definition evolves (n : nat) (w w' : World (EthAddr := EthAddr)) : Prop :=
  dpid (connection (self w')) = dpid (connection (self w))
  ∧ connect_time (connection (self w')) = connect_time (connection (self w))
  ∧ transparent (self w') = transparent (self w)
  ∧ _flood_delay w' = _flood_delay w
  ∧ (hold_down_expired (self w) = true → hold_down_expired (self w') = true)
  ∧ (∃ ls, sent (connection (self w')) = sent (connection (self w)) ++ ls
           ∧ (length ls ≤ n)%nat)
  ∧ (∃ ll, log w' = log w ++ ll)
  ∧ dom (macToPort (self w)) ⊆ dom (macToPort (self w')).

End Controller.

(** ** More traffic for the concrete session *)

Module Traffic.

Definition handle_ConnectionUp :=
  _handle_ConnectionUp (EthAddr := Z) Demo.dpid_str.

(** A buffered TCP segment 10.0.0.1 -> 10.0.0.4, port 12345. *)
Definition tcp_blocked_event : Event (EthAddr := Z) :=
  {| parsed := {| src := Demo.macA; dst := Demo.macB; type := 0x0800;
                  next := ipv4 Demo.h1 Demo.h4 (Some 12345) |};
     port := 1;
     ofp := {| pi_buffer_id := Some 9; pi_data := [] |} |}.

(** An IPv4 packet without TCP segment, 10.0.0.9 -> 10.0.0.3, not
    buffered. *)
Definition udp_event : Event (EthAddr := Z) :=
  {| parsed := {| src := Demo.macA; dst := Demo.macB; type := 0x0800;
                  next := ipv4 Demo.h9 Demo.h3 None |};
     port := 1;
     ofp := {| pi_buffer_id := None; pi_data := [1; 2; 3] |} |}.

Definition ipv6_event : Event (EthAddr := Z) :=
  {| parsed := {| src := Demo.macA; dst := Demo.macB; type := 0x86dd;
                  next := ipv6 |};
     port := 1;
     ofp := {| pi_buffer_id := Some 10; pi_data := [] |} |}.


(** A reply from [macB] on port 2, and the session after it was handled:
    [macB] is known on port 2. *)
Definition reply_event : Event (EthAddr := Z) :=
  {| parsed := {| src := Demo.macB; dst := Demo.macA; type := 0x0806;
                  next := arp 2 Demo.h4 Demo.h1 |};
     port := 2;
     ofp := {| pi_buffer_id := Some 12; pi_data := [] |} |}.


(** [macA] seen again, now on port 3. *)
Definition moved_event : Event (EthAddr := Z) :=
  {| parsed := {| src := Demo.macA; dst := Demo.macB; type := 0x0806;
                  next := arp 1 Demo.h1 Demo.h4 |};
     port := 3;
     ofp := {| pi_buffer_id := Some 13; pi_data := [] |} |}.

Definition knows_B : World (EthAddr := Z) :=
  exec (Demo.handle reply_event 100) (Demo.fresh 0).

End Traffic.

Arguments AddRule : simpl never.
Arguments DeleteRule : simpl never.
Arguments CheckRule : simpl never.
Arguments flood : simpl never.
Arguments drop : simpl never.
Arguments firewall_stage : simpl never.
Arguments forwarding_stage : simpl never.

(** Running a monadic term on a world: unfold the plumbing and compute. *)
Ltac run_monad :=
  repeat (unfold mbind, M_bind, mret, M_ret, get, modify, raise, try_except,
            log_msg, firewall_getitem, firewall_setitem, firewall_delitem,
            connection_send; cbn).

(** ** The firewall table: what the three methods do *)

Section Firewall_theory.

Context {EthAddr : Type} {EthAddr_eq_dec : EqDecision EthAddr}
  {EthAddr_countable : Countable EthAddr}.

Implicit Types (w : World (EthAddr := EthAddr)) (fw : gmap key bool).
Implicit Types (d : string) (s : pyvalue) (t : IPAddr) (p : Z) (v : bool).

Lemma add_log_add_log l1 l2 w :
  add_log l2 (add_log l1 w) = add_log (l1 ++ l2) w.
Proof. unfold add_log; cbn. by rewrite app_assoc. Qed.

(** Addresses as key components: only 0.0.0.0 is an integer, namely [0]. *)
Lemma as_key_addr_inj (a b : IPAddr) :
  as_key (VAddr a) = as_key (VAddr b) → a = b.
Proof. cbn. repeat case_bool_decide; congruence. Qed.

Lemma as_key_addr_int (a : IPAddr) (n : Z) :
  as_key (VAddr a) = VInt n ↔ a = 0 ∧ n = 0.
Proof. cbn. case_bool_decide; split; intros; simplify_eq; intuition congruence. Qed.

Lemma as_key_addr_nonzero (a : IPAddr) : a ≠ 0 → as_key (VAddr a) = VAddr a.
Proof. intros Ha. cbn. by rewrite bool_decide_eq_false_2. Qed.


(** A host-pair key is a destination-service key only when its
    destination is 0.0.0.0 and the port is 0; a four-component key is
    neither. *)
Lemma host_pair_eq_dest_service d s t d' t' p' :
  host_pair_key d s t = dest_service_key d' t' p'
  ↔ d = d' ∧ as_key s = as_key (VAddr t') ∧ t = 0 ∧ p' = 0.
Proof.
  unfold host_pair_key, dest_service_key. split.
  - intros [= -> E1 E2]. apply as_key_addr_int in E2 as [-> ->]. done.
  - intros (-> & -> & -> & ->). done.
Qed.

Lemma host_pair_key_inj d s t d' s' t' :
  host_pair_key d s t = host_pair_key d' s' t'
  ↔ d = d' ∧ as_key s = as_key s' ∧ t = t'.
Proof.
  unfold host_pair_key. split.
  - intros [= -> E1 E2]. by apply as_key_addr_inj in E2 as ->.
  - by intros (-> & -> & ->).
Qed.

Lemma dest_service_key_inj d t p d' t' p' :
  dest_service_key d t p = dest_service_key d' t' p'
  ↔ d = d' ∧ t = t' ∧ p = p'.
Proof.
  unfold dest_service_key. split.
  - intros [= -> E ->]. by apply as_key_addr_inj in E as ->.
  - by intros (-> & -> & ->).
Qed.

Lemma host_pair_ne_dest_service d s t d' t' p' :
  t ≠ 0 ∨ p' ≠ 0 → host_pair_key d s t ≠ dest_service_key d' t' p'.
Proof. rewrite host_pair_eq_dest_service. intros [?|?] (_ & _ & ? & ?); done. Qed.

Lemma full_tuple_ne_host_pair d s t p d' s' t' :
  full_tuple_key d s t p ≠ host_pair_key d' s' t'.
Proof. unfold full_tuple_key, host_pair_key. congruence. Qed.

Lemma full_tuple_ne_dest_service d s t p d' t' p' :
  full_tuple_key d s t p ≠ dest_service_key d' t' p'.
Proof. unfold full_tuple_key, dest_service_key. congruence. Qed.

(** [AddRule] stores [True] under the selected key, whatever [value] is,
    and logs one line. *)
Lemma AddRule_run d s t p v w :
  ∃ fmt, AddRule d s t p v w =
    (Ok (), add_log [(DEBUG, fmt)]
              (set_self (set_firewall (insert (rule_key d s t p) true)) w)).
Proof.
  unfold AddRule, rule_key.
  case_bool_decide; [|destruct (py_eq s (VInt 0))]; run_monad;
    eexists; reflexivity.
Qed.

Lemma AddRule_firewall d s t p v w :
  firewall (self (exec (AddRule d s t p v) w))
  = <[rule_key d s t p := true]> (firewall (self w)).
Proof.
  destruct (AddRule_run d s t p v w) as [fmt E].
  unfold exec. by rewrite E.
Qed.

Lemma AddRule_returns d s t p v w : eval (AddRule d s t p v) w = Ok ().
Proof.
  destruct (AddRule_run d s t p v w) as [fmt E].
  unfold eval. by rewrite E.
Qed.

(** [DeleteRule] removes the selected key; a missing key is logged, not
    raised. *)
Lemma DeleteRule_run d s t p w :
  ∃ l, DeleteRule d s t p w =
    (Ok (), add_log l (set_self (set_firewall (delete (rule_key d s t p))) w)).
Proof.
  destruct w as [[c tr m fw h] fd lg].
  unfold DeleteRule, rule_key.
  case_bool_decide; [|destruct (py_eq s (VInt 0))]; run_monad;
    match goal with |- context [fw !! ?k] => destruct (fw !! k) eqn:E end;
    run_monad; eexists; unfold add_log, set_self, set_firewall; cbn;
    rewrite ?(delete_id _ _ E); reflexivity.
Qed.

Lemma DeleteRule_firewall d s t p w :
  firewall (self (exec (DeleteRule d s t p) w))
  = delete (rule_key d s t p) (firewall (self w)).
Proof.
  destruct (DeleteRule_run d s t p w) as [l E].
  unfold exec. by rewrite E.
Qed.

Lemma DeleteRule_returns d s t p w : eval (DeleteRule d s t p) w = Ok ().
Proof.
  destruct (DeleteRule_run d s t p w) as [l E].
  unfold eval. by rewrite E.
Qed.

(** [CheckRule]: the three ways through the two [try] blocks. *)
Lemma CheckRule_host_pair d s t p w entry :
  firewall (self w) !! host_pair_key d s t = Some entry →
  CheckRule d s t p w =
    (Ok entry, add_log [(INFO, "Rule (%s x->x %s) found in %s: DROP")] w).
Proof.
  intros E. unfold CheckRule. run_monad.
  rewrite E. reflexivity.
Qed.

Lemma CheckRule_dest_service d s t p w entry :
  firewall (self w) !! host_pair_key d s t = None →
  firewall (self w) !! dest_service_key d t p = Some entry →
  CheckRule d s t p w =
    (Ok entry,
     add_log [(DEBUG, "Rule (%s -> %s) NOT found in %s: IP Rule NOT found");
              (INFO, "Rule Dst(%s,%s)) found in %s: DROP")] w).
Proof.
  intros E1 E2. unfold CheckRule. run_monad.
  rewrite E1. run_monad. rewrite E2. run_monad. by rewrite add_log_add_log.
Qed.

Lemma CheckRule_default d s t p w :
  firewall (self w) !! host_pair_key d s t = None →
  firewall (self w) !! dest_service_key d t p = None →
  CheckRule d s t p w =
    (Ok false,
     add_log [(DEBUG, "Rule (%s -> %s) NOT found in %s: IP Rule NOT found");
              (DEBUG, "Rule Dst(%s,%s) NOT found in %s: IP Rule NOT found")] w).
Proof.
  intros E1 E2. unfold CheckRule. run_monad.
  rewrite E1. run_monad. rewrite E2. run_monad. by rewrite add_log_add_log.
Qed.

(** In every case [CheckRule] returns a boolean and only writes to the
    log. *)
Lemma CheckRule_run d s t p w :
  ∃ b l, CheckRule d s t p w = (Ok b, add_log l w).
Proof.
  destruct (firewall (self w) !! host_pair_key d s t) as [e|] eqn:E1.
  { eexists _, _. by apply CheckRule_host_pair. }
  destruct (firewall (self w) !! dest_service_key d t p) as [e|] eqn:E2.
  { eexists _, _. by apply CheckRule_dest_service. }
  eexists _, _. by apply CheckRule_default.
Qed.

(** The invariant holds for the empty table and is kept by the two
    methods that write to the table. *)
Lemma firewall_wf_empty : firewall_wf ∅.
Proof. apply map_Forall_empty. Qed.

Lemma firewall_wf_lookup fw k entry :
  firewall_wf fw → fw !! k = Some entry → entry = true.
Proof. intros Hwf E. exact (Hwf k entry E). Qed.

Lemma AddRule_wf d s t p v w :
  firewall_wf (firewall (self w)) →
  firewall_wf (firewall (self (exec (AddRule d s t p v) w))).
Proof.
  intros Hwf. rewrite AddRule_firewall.
  by apply map_Forall_insert_2.
Qed.

Lemma DeleteRule_wf d s t p w :
  firewall_wf (firewall (self w)) →
  firewall_wf (firewall (self (exec (DeleteRule d s t p) w))).
Proof.
  intros Hwf. rewrite DeleteRule_firewall.
  by apply map_Forall_delete.
Qed.

Lemma CheckRule_firewall d s t p w :
  firewall (self (exec (CheckRule d s t p) w)) = firewall (self w).
Proof.
  destruct (CheckRule_run d s t p w) as (b & l & E).
  unfold exec. by rewrite E.
Qed.

(** The result of [CheckRule] is decided by the two keys it reads. *)
Lemma CheckRule_eval_ext d s t p w w' :
  firewall (self w') !! host_pair_key d s t
    = firewall (self w) !! host_pair_key d s t →
  firewall (self w') !! dest_service_key d t p
    = firewall (self w) !! dest_service_key d t p →
  eval (CheckRule d s t p) w' = eval (CheckRule d s t p) w.
Proof.
  intros E1 E2. unfold eval.
  destruct (firewall (self w) !! host_pair_key d s t) as [e|] eqn:F1.
  { rewrite (CheckRule_host_pair d s t p w e F1).
    by rewrite (CheckRule_host_pair d s t p w' e). }
  destruct (firewall (self w) !! dest_service_key d t p) as [e|] eqn:F2.
  { rewrite (CheckRule_dest_service d s t p w e F1 F2).
    by rewrite (CheckRule_dest_service d s t p w' e). }
  rewrite (CheckRule_default d s t p w F1 F2).
  by rewrite (CheckRule_default d s t p w').
Qed.

(** C1. [CheckRule] looks up the host-pair key [(dpidstr, srcipstr,
    dstipstr)] first and answers block ([True]) when it is present, in
    which case the destination-service key is not read (a single log line
    is written); otherwise it looks up [(dpidstr, dstipstr, dstport)] and
    answers block when that is present; otherwise it answers allow
    ([False]).  It never raises and always returns a boolean.  The table
    is any table whose entries are [True], as all tables built by
    [AddRule] and [DeleteRule] are. *)
Theorem CheckRule_lookup_order d s t p w :
  firewall_wf (firewall (self w)) →
  (is_Some (firewall (self w) !! host_pair_key d s t) →
     CheckRule d s t p w =
       (Ok true, add_log [(INFO, "Rule (%s x->x %s) found in %s: DROP")] w))
  ∧ (firewall (self w) !! host_pair_key d s t = None →
     is_Some (firewall (self w) !! dest_service_key d t p) →
     CheckRule d s t p w =
       (Ok true,
        add_log [(DEBUG, "Rule (%s -> %s) NOT found in %s: IP Rule NOT found");
                 (INFO, "Rule Dst(%s,%s)) found in %s: DROP")] w))
  ∧ (firewall (self w) !! host_pair_key d s t = None →
     firewall (self w) !! dest_service_key d t p = None →
     CheckRule d s t p w =
       (Ok false,
        add_log [(DEBUG, "Rule (%s -> %s) NOT found in %s: IP Rule NOT found");
                 (DEBUG, "Rule Dst(%s,%s) NOT found in %s: IP Rule NOT found")]
          w))
  ∧ (eval (CheckRule d s t p) w = Ok true
     ∨ eval (CheckRule d s t p) w = Ok false).
Proof.
  intros Hwf. repeat split.
  - intros [e E]. rewrite (firewall_wf_lookup _ _ _ Hwf E) in E.
    by apply CheckRule_host_pair.
  - intros E1 [e E2]. rewrite (firewall_wf_lookup _ _ _ Hwf E2) in E2.
    by apply CheckRule_dest_service.
  - apply CheckRule_default.
  - destruct (CheckRule_run d s t p w) as ([|] & l & E);
      unfold eval; rewrite E; auto.
Qed.

(** C2. After [AddRule] with [dstport = 0], which stores the host-pair
    key, [CheckRule] on the same switch, source and destination answers
    block for every port; in particular for the rule
    [("s1", 10.0.0.1, 10.0.0.4, 0)] and port 12345. *)
Theorem host_pair_rule_blocks_every_port :
  (∀ d s t anyPort v w,
     eval (CheckRule d s t anyPort) (exec (AddRule d s t 0 v) w) = Ok true)
  ∧ (∀ w,
     eval (CheckRule "s1" (VAddr (dotted 10 0 0 1)) (dotted 10 0 0 4) 12345)
       (exec (AddRule "s1" (VAddr (dotted 10 0 0 1)) (dotted 10 0 0 4) 0 true)
          w)
     = Ok true).
Proof.
  assert (G : ∀ d s t anyPort v w,
    eval (CheckRule d s t anyPort) (exec (AddRule d s t 0 v) w) = Ok true).
  { intros. unfold eval.
    rewrite (CheckRule_host_pair d s t anyPort _ true); [done|].
    rewrite AddRule_firewall. unfold rule_key.
    rewrite bool_decide_eq_true_2 by done. apply lookup_insert_eq. }
  split; [exact G | intros; apply G].
Qed.

(** C3. After [AddRule] with source [0] and a non-zero port, which stores
    the destination-service key, [CheckRule] on the same switch,
    destination and port answers block for every source (the scenario
    with the rule [("s1", 0, 10.0.0.3, 80)] and source 10.0.0.9 is run
    below).  The table is any table whose entries are [True]. *)
Theorem dest_service_rule_blocks_every_source d t p v w s :
  firewall_wf (firewall (self w)) →
  p ≠ 0 →
  eval (CheckRule d s t p) (exec (AddRule d (VInt 0) t p v) w) = Ok true.
Proof.
  intros Hwf Hp. set (w' := exec (AddRule d (VInt 0) t p v) w).
  assert (Hwf' : firewall_wf (firewall (self w'))) by by apply AddRule_wf.
  assert (E2 : firewall (self w') !! dest_service_key d t p = Some true).
  { unfold w'. rewrite AddRule_firewall. unfold rule_key.
    rewrite bool_decide_eq_false_2 by done. cbn. apply lookup_insert_eq. }
  unfold eval.
  destruct (firewall (self w') !! host_pair_key d s t) as [e|] eqn:E1.
  - rewrite (firewall_wf_lookup _ _ _ Hwf' E1) in E1.
    by rewrite (CheckRule_host_pair d s t p w' true E1).
  - by rewrite (CheckRule_dest_service d s t p w' true E1 E2).
Qed.

(** C4. [AddRule] with a source that is not zero, that is, for which
    [srcipstr == 0] is false (neither the integer [0] nor the address
    0.0.0.0), and a non-zero port stores the four-component key.
    Starting from an empty table this is the only key, and [CheckRule] on
    the identical arguments answers allow: neither of the two keys it
    reads is the stored one.  In any table, no lookup changes its answer
    when such a rule is added. *)
Theorem full_tuple_rule_is_not_consulted d s t p v w :
  firewall (self w) = ∅ →
  py_eq s (VInt 0) = false →
  p ≠ 0 →
  firewall (self (exec (AddRule d s t p v) w))
    = {[ full_tuple_key d s t p := true ]}
  ∧ eval (CheckRule d s t p) (exec (AddRule d s t p v) w) = Ok false
  ∧ (∀ w' d' s' t' p',
       eval (CheckRule d' s' t' p') (exec (AddRule d s t p v) w')
       = eval (CheckRule d' s' t' p') w').
Proof.
  intros Hempty Hs Hp.
  assert (K : rule_key d s t p = full_tuple_key d s t p).
  { unfold rule_key. by rewrite bool_decide_eq_false_2, Hs. }
  assert (E : firewall (self (exec (AddRule d s t p v) w))
              = {[ full_tuple_key d s t p := true ]}).
  { rewrite AddRule_firewall, Hempty, K. apply insert_empty. }
  split; [exact E|]. split.
  - unfold eval. rewrite CheckRule_default; [done| |]; rewrite E.
    + apply lookup_singleton_ne, full_tuple_ne_host_pair.
    + apply lookup_singleton_ne, full_tuple_ne_dest_service.
  - intros w' d' s' t' p'. apply CheckRule_eval_ext;
      rewrite AddRule_firewall, K.
    + apply lookup_insert_ne, full_tuple_ne_host_pair.
    + apply lookup_insert_ne, full_tuple_ne_dest_service.
Qed.

(** The address 0.0.0.0 as source is zero for [AddRule]: with a non-zero
    port the destination-service key is selected, as for the integer
    [0]. *)
Lemma null_address_source_selects_dest_service d t p :
  p ≠ 0 →
  rule_key d (VAddr (dotted 0 0 0 0)) t p = dest_service_key d t p
  ∧ rule_key d (VInt 0) t p = dest_service_key d t p.
Proof.
  intros Hp. unfold rule_key. by rewrite !bool_decide_eq_false_2.
Qed.

(** C8 (amended). Adding a rule twice gives the same table as adding it
    once, and one [DeleteRule] after the two [AddRule]s leaves the selected
    key absent.  [CheckRule] on the arguments of a [DeleteRule] answers
    allow provided the table held no other key that [CheckRule] reads for
    these arguments, that is, neither the host-pair key nor the
    destination-service key apart from the deleted one; this is the case
    when the rule was added to an empty table. *)
Theorem AddRule_idempotent_DeleteRule d s t p v v' w :
  firewall (self (exec (AddRule d s t p v') (exec (AddRule d s t p v) w)))
    = firewall (self (exec (AddRule d s t p v) w))
  ∧ firewall (self (exec (DeleteRule d s t p)
       (exec (AddRule d s t p v') (exec (AddRule d s t p v) w))))
      !! rule_key d s t p = None
  ∧ ((∀ k, k ∈ [host_pair_key d s t; dest_service_key d t p] →
           k ≠ rule_key d s t p → firewall (self w) !! k = None) →
     eval (CheckRule d s t p) (exec (DeleteRule d s t p) w) = Ok false)
  ∧ (firewall (self w) = ∅ →
     eval (CheckRule d s t p)
       (exec (DeleteRule d s t p)
          (exec (AddRule d s t p v') (exec (AddRule d s t p v) w)))
     = Ok false).
Proof.
  assert (Absent : ∀ w0 k,
    (k ≠ rule_key d s t p → firewall (self w0) !! k = None) →
    firewall (self (exec (DeleteRule d s t p) w0)) !! k = None).
  { intros w0 k Hk. rewrite DeleteRule_firewall.
    destruct (decide (k = rule_key d s t p)) as [->|Hne].
    - apply lookup_delete_eq.
    - rewrite lookup_delete_ne by done. auto. }
  assert (Allow : ∀ w0,
    (∀ k, k ∈ [host_pair_key d s t; dest_service_key d t p] →
          k ≠ rule_key d s t p → firewall (self w0) !! k = None) →
    eval (CheckRule d s t p) (exec (DeleteRule d s t p) w0) = Ok false).
  { intros w0 Hk. unfold eval.
    rewrite CheckRule_default; [done| |]; apply Absent, Hk; set_solver. }
  repeat split.
  - rewrite !AddRule_firewall. apply insert_insert_eq.
  - rewrite DeleteRule_firewall. apply lookup_delete_eq.
  - apply Allow.
  - intros Hempty. apply Allow. intros k _ Hne.
    rewrite !AddRule_firewall, Hempty, insert_insert_eq.
    rewrite lookup_insert_ne by done. apply lookup_empty.
Qed.

End Firewall_theory.

(** ** The packet-in handler *)

Section Handler_theory.

Context {EthAddr : Type} {EthAddr_eq_dec : EqDecision EthAddr}
  {EthAddr_countable : Countable EthAddr}.
Variable is_multicast : EthAddr → bool.
Variable isBridgeFiltered : EthAddr → bool.
Variable LLDP_TYPE : Z.
Variable dpid_to_str : Z → string.

Implicit Types (w : World (EthAddr := EthAddr)).
Implicit Types (event : Event (EthAddr := EthAddr)).
Implicit Types (ls : list (ofp_message (EthAddr := EthAddr))).
Implicit Types (ll : list LogRecord).

(** Two worlds built from the same one by field updates are compared
    field by field. *)
Ltac world_eq :=
  match goal with
  | w : World |- _ =>
      destruct w as [[[?dp ?ct ?sn] ?tr ?m ?fw ?h] ?fd ?lg];
      unfold emit, add_log, add_sent, set_self, set_sent,
        set_hold_down_expired, set_macToPort; cbn;
      rewrite ?app_nil_r, <- ?app_assoc; try reflexivity
  end.

Lemma set_hold_down_expired_id w :
  set_self (set_hold_down_expired (hold_down_expired (self w))) w = w.
Proof. world_eq. Qed.

(** [drop] sends at most one message and touches nothing else. *)
Lemma drop_run event duration w :
  ∃ ls, drop event duration w = (Ok (), emit ls [] w) ∧ (length ls ≤ 1)%nat.
Proof.
  unfold drop. destruct duration as [d|]; [|destruct (pi_buffer_id _)];
    run_monad.
  - eexists [_]. split; [|cbn; lia]. f_equal. world_eq.
  - eexists [_]. split; [|cbn; lia]. f_equal. world_eq.
  - exists []. split; [|cbn; lia]. f_equal. world_eq.
Qed.

(** [drop(10)] installs a flow without actions, both timeouts 10. *)
Lemma drop_duration_run event x w :
  drop event (Some (inl x)) w =
    (Ok (), emit [FlowMod {| fm_match := Some (from_packet (parsed event) None);
                             fm_idle_timeout := x;
                             fm_hard_timeout := x;
                             fm_actions := [];
                             fm_buffer_id := pi_buffer_id (ofp event);
                             fm_data := None |}] [] w).
Proof. unfold drop. run_monad. f_equal. world_eq. Qed.

(** The message [flood] sends and the records it logs. *)
Lemma flood_run event time_time message w :
  flood event time_time message w =
    (Ok (),
     emit
       [PacketOut
          {| po_actions := if flood_elapsed time_time w
                           then [ofp_action_output OFPP_FLOOD] else [];
             po_data := Some (ofp event);
             po_buffer_id := None;
             po_in_port := Some (port event) |}]
       (if flood_elapsed time_time w then
          (if hold_down_expired (self w) then []
           else [(INFO, "%s: Flood hold-down expired -- flooding")])
          ++ match message with Some m => [(DEBUG, m)] | None => [] end
        else [])
       (set_self
          (set_hold_down_expired
             (hold_down_expired (self w) || flood_elapsed time_time w))
          w)).
Proof.
  destruct w as [[[dp ct sn] tr m fw h] fd lg].
  unfold flood, flood_elapsed. run_monad.
  destruct (bool_decide _); run_monad;
    [destruct h; run_monad; destruct message; run_monad|];
    unfold emit, add_log, add_sent, set_self, set_sent, set_hold_down_expired;
    cbn; rewrite ?app_nil_r, <- ?app_assoc, ?orb_false_r; reflexivity.
Qed.

(** A firewall check followed by [drop()] when the answer is [True]. *)
Lemma check_then_drop event d s t p w :
  ∃ b ls ll,
    (blocked ← CheckRule d s t p;
     if bool_decide (blocked = true) then drop event None;; mret true
     else mret false) w = (Ok b, emit ls ll w)
    ∧ eval (CheckRule d s t p) w = Ok b
    ∧ (length ls ≤ 1)%nat
    ∧ (b = false → ls = []).
Proof.
  destruct (CheckRule_run d s t p w) as (b & l & E).
  unfold eval. run_monad. rewrite E. cbn. destruct b.
  - rewrite bool_decide_eq_true_2 by done.
    destruct (drop_run event None (add_log l w)) as (ls & D & Hls).
    rewrite D. exists true, ls, l. repeat split; [|done..].
    f_equal. world_eq.
  - rewrite bool_decide_eq_false_2 by done.
    exists false, [], l. repeat split; [|cbn; lia]. f_equal. world_eq.
Qed.

(** The firewall stage: its verdict, and what it sends.  It sends a
    message only when it makes the handler return. *)
Lemma firewall_stage_run event dpidstr w :
  ∃ b ls ll,
    firewall_stage event dpidstr w = (Ok b, emit ls ll w)
    ∧ firewall_verdict event dpidstr w = Ok b
    ∧ (length ls ≤ 1)%nat
    ∧ (b = false → ls = []).
Proof.
  unfold firewall_stage, firewall_verdict.
  destruct (next (parsed event)) as [srcip dstip segmant | | | ].
  - set (w1 := add_log [(DEBUG, "%i IP %s => %s")] w).
    assert (∃ b ls ll,
      (blocked ← CheckRule dpidstr (VAddr srcip) dstip (default 0 segmant);
       if bool_decide (blocked = true) then drop event None;; mret true
       else mret false) w1 = (Ok b, emit ls ll w)
      ∧ eval (CheckRule dpidstr (VAddr srcip) dstip (default 0 segmant)) w
        = Ok b
      ∧ (length ls ≤ 1)%nat ∧ (b = false → ls = [])) as (b & ls & ll & E & R).
    { destruct (check_then_drop event dpidstr (VAddr srcip) dstip
                  (default 0 segmant) w1) as (b & ls & ll & E & V & R).
      exists b, ls, ([(DEBUG, "%i IP %s => %s")] ++ ll).
      split; [|split; [|exact R]].
      - rewrite E. f_equal. unfold w1. world_eq.
      - rewrite <- V. symmetry. by apply CheckRule_eval_ext. }
    exists b, ls, ll. split; [|exact R].
    rewrite <- E. destruct segmant; reflexivity.
  - exists false, [], [(DEBUG, "%i ARP %s %s => %s")].
    repeat split; [|cbn; lia]. run_monad. f_equal. world_eq.
  - destruct (drop_run event None w) as (ls & D & Hls).
    run_monad. rewrite D. exists true, ls, []. repeat split; done.
  - exists false, [], []. repeat split; [|cbn; lia]. run_monad. f_equal.
    world_eq.
Qed.

Lemma firewall_verdict_ext event dpidstr w w' :
  firewall (self w') = firewall (self w) →
  firewall_verdict event dpidstr w' = firewall_verdict event dpidstr w.
Proof.
  intros E. unfold firewall_verdict.
  destruct (next (parsed event)); try reflexivity.
  apply CheckRule_eval_ext; by rewrite E.
Qed.

(** Steps 2 to 6 send at most one message; they never clear the
    hold-down flag. *)
Lemma forwarding_stage_run event time_time w :
  ∃ ls ll b,
    forwarding_stage is_multicast isBridgeFiltered LLDP_TYPE event time_time w
      = (Ok (), emit ls ll (set_self (set_hold_down_expired b) w))
    ∧ (length ls ≤ 1)%nat
    ∧ (hold_down_expired (self w) = true → b = true).
Proof.
  unfold forwarding_stage. run_monad.
  destruct (negb (transparent (self w)) && _).
  { destruct (drop_run event None w) as (ls & D & Hls).
    exists ls, [], (hold_down_expired (self w)).
    by rewrite D, set_hold_down_expired_id. }
  destruct (is_multicast _).
  { rewrite flood_run. eexists [_], _, _. split; [reflexivity|].
    split; [cbn; lia|]. by intros ->. }
  destruct (macToPort (self w) !! _) as [port_|].
  2:{ rewrite flood_run. eexists [_], _, _. split; [reflexivity|].
      split; [cbn; lia|]. by intros ->. }
  case_bool_decide; run_monad.
  - rewrite drop_duration_run.
    eexists [_],
      [(WARNING, "Same port for packet from %s -> %s on %s.%s.  Drop.")],
      (hold_down_expired (self w)).
    split; [|split; [cbn; lia|done]]. apply f_equal. world_eq.
  - eexists [_], [(DEBUG, "installing flow for %s.%i -> %s.%i")],
      (hold_down_expired (self w)).
    split; [|split; [cbn; lia|done]]. apply f_equal. world_eq.
Qed.

(** The whole handler: it returns normally; the learning table gains the
    source address; at most one message is sent. *)
Lemma handle_PacketIn_run event time_time w :
  ∃ ls ll b,
    _handle_PacketIn is_multicast isBridgeFiltered LLDP_TYPE dpid_to_str
      event time_time w
      = (Ok (),
         emit ls ll
           (set_self (set_hold_down_expired b)
              (set_self
                 (set_macToPort (insert (src (parsed event)) (port event)))
                 w)))
    ∧ (length ls ≤ 1)%nat
    ∧ (hold_down_expired (self w) = true → b = true).
Proof.
  unfold _handle_PacketIn. run_monad.
  set (w1 := set_self (set_macToPort _) w).
  destruct (firewall_stage_run event
              (dpid_to_str (dpid (connection (self w)))) w1)
    as (r & ls & ll & E & _ & Hls & Hr).
  rewrite E. destruct r.
  - exists ls, ll, (hold_down_expired (self w)).
    split; [|done]. apply f_equal. unfold w1. world_eq.
  - rewrite (Hr eq_refl).
    destruct (forwarding_stage_run event time_time (emit [] ll w1))
      as (ls' & ll' & b & F & Hls' & Hb).
    rewrite F. exists ls', (ll ++ ll'), b.
    split; [|split; [done|]].
    + apply f_equal. unfold w1. world_eq.
    + intros Hh. apply Hb. unfold w1. clear -Hh. world_eq. exact Hh.
Qed.

(** The constructor preloads the two demonstration rules. *)
Lemma init_firewall c tr w :
  firewall (self (exec (__init__ dpid_to_str c tr) w))
  = <[dest_service_key (dpid_to_str (dpid c)) (dotted 10 0 0 3) 80 := true]>
      (<[host_pair_key (dpid_to_str (dpid c)) (VAddr (dotted 10 0 0 1))
           (dotted 10 0 0 4) := true]> ∅).
Proof.
  unfold __init__, exec. run_monad.
  set (w0 := set_self _ w).
  destruct (AddRule_run (dpid_to_str (dpid c)) (VAddr (dotted 10 0 0 1))
              (dotted 10 0 0 4) 0 true w0) as (f1 & E1).
  rewrite E1.
  match goal with |- context [AddRule ?d ?s ?t ?p ?v ?x] =>
    destruct (AddRule_run d s t p v x) as (f2 & E2); rewrite E2 end.
  reflexivity.
Qed.

Lemma init_wf c tr w :
  firewall_wf (firewall (self (exec (__init__ dpid_to_str c tr) w))).
Proof.
  rewrite init_firewall.
  apply map_Forall_insert_2; [done|].
  apply map_Forall_insert_2; [done|]. apply map_Forall_empty.
Qed.

(** The handler does not write to the firewall table. *)
Lemma handle_PacketIn_firewall event time_time w :
  firewall (self (exec (_handle_PacketIn is_multicast isBridgeFiltered
                          LLDP_TYPE dpid_to_str event time_time) w))
  = firewall (self w).
Proof.
  destruct (handle_PacketIn_run event time_time w) as (ls & ll & b & E & _).
  unfold exec. by rewrite E.
Qed.


(** C6. The handler writes [macToPort[packet.src] = event.port] first and
    runs the firewall stage and the forwarding stages on the updated
    world.  It always returns, and the learning table it leaves is the one
    it was given with the packet's source address mapped to the ingress
    port: no later stage, whatever it decides, writes to the table. *)
Theorem handler_learns_source event time_time w :
  _handle_PacketIn is_multicast isBridgeFiltered LLDP_TYPE dpid_to_str
      event time_time w
    = (returned ← firewall_stage event (dpid_to_str (dpid (connection (self w))));
       if returned : bool then mret ()
       else forwarding_stage is_multicast isBridgeFiltered LLDP_TYPE event
              time_time)
        (set_self (set_macToPort (insert (src (parsed event)) (port event))) w)
  ∧ eval (_handle_PacketIn is_multicast isBridgeFiltered LLDP_TYPE dpid_to_str
          event time_time) w = Ok ()
  ∧ macToPort (self (exec (_handle_PacketIn is_multicast isBridgeFiltered
                             LLDP_TYPE dpid_to_str event time_time) w))
    = <[src (parsed event) := port event]> (macToPort (self w))
  ∧ macToPort (self (exec (_handle_PacketIn is_multicast isBridgeFiltered
                             LLDP_TYPE dpid_to_str event time_time) w))
      !! src (parsed event) = Some (port event).
Proof.
  split; [reflexivity|].
  destruct (handle_PacketIn_run event time_time w) as (ls & ll & b & E & _).
  unfold eval, exec. rewrite E. cbn.
  split; [done|]. split; [done|]. apply lookup_insert_eq.
Qed.

(** C7. When the firewall stage lets the packet through, the link-local
    and multicast tests fail, and the port learned for the destination is
    the ingress port, the handler logs a warning and sends exactly one
    message: a flow-mod matching the packet, without actions, with idle
    and hard timeout 10 and the buffer id of the packet-in.  No forwarding
    flow is installed. *)
Theorem loop_guard_installs_discard_flow event time_time w :
  firewall_verdict event (dpid_to_str (dpid (connection (self w)))) w
    = Ok false →
  transparent (self w) = true
    ∨ (type (parsed event) ≠ LLDP_TYPE
       ∧ isBridgeFiltered (dst (parsed event)) = false) →
  is_multicast (dst (parsed event)) = false →
  <[src (parsed event) := port event]> (macToPort (self w))
    !! dst (parsed event) = Some (port event) →
  ∃ ll,
    _handle_PacketIn is_multicast isBridgeFiltered LLDP_TYPE dpid_to_str
      event time_time w
    = (Ok (),
       emit
         [FlowMod {| fm_match := Some (from_packet (parsed event) None);
                     fm_idle_timeout := 10;
                     fm_hard_timeout := 10;
                     fm_actions := [];
                     fm_buffer_id := pi_buffer_id (ofp event);
                     fm_data := None |}]
         (ll ++ [(WARNING,
                  "Same port for packet from %s -> %s on %s.%s.  Drop.")])
         (set_self (set_macToPort (insert (src (parsed event)) (port event)))
            w)).
Proof.
  intros Hv Hll Hmc Hport.
  unfold _handle_PacketIn. run_monad.
  set (w1 := set_self (set_macToPort _) w).
  destruct (firewall_stage_run event
              (dpid_to_str (dpid (connection (self w)))) w1)
    as (r & ls & ll & E & V & _ & Hr).
  rewrite (firewall_verdict_ext _ _ w w1) in V by reflexivity.
  rewrite Hv in V. injection V as <-. rewrite (Hr eq_refl) in E.
  rewrite E. exists ll.
  unfold forwarding_stage. run_monad.
  assert (negb (transparent (self w))
          && (bool_decide (type (parsed event) = LLDP_TYPE)
              || isBridgeFiltered (dst (parsed event))) = false) as ->.
  { destruct Hll as [-> | [Ht ->]]; [done|].
    rewrite bool_decide_eq_false_2 by done. apply andb_false_r. }
  rewrite Hmc, Hport. rewrite bool_decide_eq_true_2 by done.
  run_monad. rewrite drop_duration_run. apply f_equal.
  unfold w1. world_eq.
Qed.

(** C9. One packet-in makes the handler send no message or one message:
    the queue of the connection grows by a list of length at most one. *)
Theorem handler_sends_at_most_one event time_time w :
  ∃ ls,
    eval (_handle_PacketIn is_multicast isBridgeFiltered LLDP_TYPE
            dpid_to_str event time_time) w = Ok ()
    ∧ sent (connection (self
        (exec (_handle_PacketIn is_multicast isBridgeFiltered LLDP_TYPE
                 dpid_to_str event time_time) w)))
      = sent (connection (self w)) ++ ls
    ∧ (length ls ≤ 1)%nat.
Proof.
  destruct (handle_PacketIn_run event time_time w)
    as (ls & ll & b & E & Hls & _).
  exists ls. unfold eval, exec. by rewrite E.
Qed.


End Handler_theory.

(** ** The theorems at the concrete session *)

(** C1 at the freshly built session: a host-pair hit, a
    destination-service hit after a host-pair miss, and two misses. *)
Lemma CheckRule_lookup_order_witness :
  firewall_wf (firewall (self (Demo.fresh 0)))
  ∧ CheckRule "s1" (VAddr Demo.h1) Demo.h4 12345 (Demo.fresh 0)
    = (Ok true,
       add_log [(INFO, "Rule (%s x->x %s) found in %s: DROP")] (Demo.fresh 0))
  ∧ CheckRule "s1" (VAddr Demo.h9) Demo.h3 80 (Demo.fresh 0)
    = (Ok true,
       add_log [(DEBUG, "Rule (%s -> %s) NOT found in %s: IP Rule NOT found");
                (INFO, "Rule Dst(%s,%s)) found in %s: DROP")] (Demo.fresh 0))
  ∧ CheckRule "s1" (VAddr Demo.h9) Demo.h4 80 (Demo.fresh 0)
    = (Ok false,
       add_log [(DEBUG, "Rule (%s -> %s) NOT found in %s: IP Rule NOT found");
                (DEBUG, "Rule Dst(%s,%s) NOT found in %s: IP Rule NOT found")]
         (Demo.fresh 0)).
Proof.
  pose proof (init_wf Demo.dpid_str Demo.conn false (Demo.blank 0)) as Hwf.
  split; [exact Hwf|]. split; [|split].
  - apply (CheckRule_lookup_order "s1" (VAddr Demo.h1) Demo.h4 12345
             (Demo.fresh 0) Hwf).
    exists true. vm_compute. reflexivity.
  - apply (CheckRule_lookup_order "s1" (VAddr Demo.h9) Demo.h3 80
             (Demo.fresh 0) Hwf).
    + vm_compute. reflexivity.
    + exists true. vm_compute. reflexivity.
  - apply (CheckRule_lookup_order "s1" (VAddr Demo.h9) Demo.h4 80
             (Demo.fresh 0) Hwf); vm_compute; reflexivity.
Defined.

(** C3 at the scenario of the specification: the rule
    [("s1", 0, 10.0.0.3, 80)] blocks source 10.0.0.9. *)
Lemma dest_service_rule_blocks_every_source_witness :
  firewall_wf (firewall (self (Demo.blank 0)))
  ∧ (80 ≠ 0)
  ∧ eval (CheckRule "s1" (VAddr (dotted 10 0 0 9)) (dotted 10 0 0 3) 80)
      (exec (AddRule "s1" (VInt 0) (dotted 10 0 0 3) 80 true) (Demo.blank 0))
    = Ok true.
Proof.
  assert (Hwf : firewall_wf (firewall (self (Demo.blank 0))))
    by apply map_Forall_empty.
  assert (Hp : 80 ≠ 0) by lia.
  split; [exact Hwf|]. split; [exact Hp|].
  exact (dest_service_rule_blocks_every_source "s1" (dotted 10 0 0 3) 80 true
           (Demo.blank 0) (VAddr (dotted 10 0 0 9)) Hwf Hp).
Defined.

(** C4 at the empty table with the rule [("s1", 10.0.0.1, 10.0.0.4, 80)]. *)
Lemma full_tuple_rule_is_not_consulted_witness :
  firewall (self (Demo.blank 0)) = ∅
  ∧ py_eq (VAddr Demo.h1) (VInt 0) = false
  ∧ (80 ≠ 0)
  ∧ firewall (self (exec (AddRule "s1" (VAddr Demo.h1) Demo.h4 80 true)
                      (Demo.blank 0)))
    = {[ full_tuple_key "s1" (VAddr Demo.h1) Demo.h4 80 := true ]}
  ∧ eval (CheckRule "s1" (VAddr Demo.h1) Demo.h4 80)
      (exec (AddRule "s1" (VAddr Demo.h1) Demo.h4 80 true) (Demo.blank 0))
    = Ok false.
Proof.
  assert (He : firewall (self (Demo.blank 0)) = ∅) by reflexivity.
  assert (Hs : py_eq (VAddr Demo.h1) (VInt 0) = false) by reflexivity.
  assert (Hp : 80 ≠ 0) by lia.
  split; [exact He|]. split; [exact Hs|]. split; [exact Hp|].
  destruct (full_tuple_rule_is_not_consulted "s1" (VAddr Demo.h1) Demo.h4 80
              true (Demo.blank 0) He Hs Hp) as (A & B & _).
  exact (conj A B).
Defined.



(** C7 at a frame whose destination is its own source. *)
Lemma loop_guard_installs_discard_flow_witness :
  firewall_verdict Demo.hairpin_event
    (Demo.dpid_str (dpid (connection (self (Demo.fresh 0))))) (Demo.fresh 0)
    = Ok false
  ∧ Demo.mac_is_multicast (dst (parsed Demo.hairpin_event)) = false
  ∧ (∃ ll,
      Demo.handle Demo.hairpin_event 200 (Demo.fresh 0)
      = (Ok (),
         emit
           [FlowMod {| fm_match :=
                         Some (from_packet (parsed Demo.hairpin_event) None);
                       fm_idle_timeout := 10;
                       fm_hard_timeout := 10;
                       fm_actions := [];
                       fm_buffer_id := Some 8;
                       fm_data := None |}]
           (ll ++ [(WARNING,
                    "Same port for packet from %s -> %s on %s.%s.  Drop.")])
           (set_self (set_macToPort (insert Demo.macA 1)) (Demo.fresh 0)))).
Proof.
  split; [reflexivity|]. split; [reflexivity|].
  apply (loop_guard_installs_discard_flow Demo.mac_is_multicast
           Demo.mac_isBridgeFiltered Demo.lldp Demo.dpid_str
           Demo.hairpin_event 200 (Demo.fresh 0)).
  - reflexivity.
  - right. split; [vm_compute; discriminate | reflexivity].
  - reflexivity.
  - vm_compute. reflexivity.
Defined.

(** C8, as stated, fails: in the freshly built session, which blocks
    10.0.0.1 -> 10.0.0.4 by a host-pair rule, the rule
    [("s1", 10.0.0.1, 10.0.0.4, 80)] is added twice and deleted once;
    [CheckRule] on the identical arguments still answers block. *)
Lemma DeleteRule_then_CheckRule_still_blocks :
  eval (CheckRule "s1" (VAddr Demo.h1) Demo.h4 80)
    (exec (DeleteRule "s1" (VAddr Demo.h1) Demo.h4 80)
       (exec (AddRule "s1" (VAddr Demo.h1) Demo.h4 80 true)
          (exec (AddRule "s1" (VAddr Demo.h1) Demo.h4 80 true)
             (Demo.fresh 0))))
  = Ok true
  ∧ eval (CheckRule "s1" (VAddr Demo.h1) Demo.h4 80)
      (exec (DeleteRule "s1" (VAddr Demo.h1) Demo.h4 80)
         (exec (AddRule "s1" (VAddr Demo.h1) Demo.h4 80 true)
            (exec (AddRule "s1" (VAddr Demo.h1) Demo.h4 80 true)
               (Demo.fresh 0))))
    ≠ Ok false.
Proof. vm_compute. split; [reflexivity | discriminate]. Qed.

(** C8 (amended) at the empty table. *)
Lemma AddRule_idempotent_DeleteRule_witness :
  firewall (self (Demo.blank 0)) = ∅
  ∧ eval (CheckRule "s1" (VAddr Demo.h1) Demo.h4 80)
      (exec (DeleteRule "s1" (VAddr Demo.h1) Demo.h4 80)
         (exec (AddRule "s1" (VAddr Demo.h1) Demo.h4 80 true)
            (exec (AddRule "s1" (VAddr Demo.h1) Demo.h4 80 true)
               (Demo.blank 0))))
    = Ok false
  ∧ eval (CheckRule "s1" (VAddr Demo.h1) Demo.h4 0)
      (exec (DeleteRule "s1" (VAddr Demo.h1) Demo.h4 0) (Demo.blank 0))
    = Ok false.
Proof.
  assert (He : firewall (self (Demo.blank 0)) = ∅) by reflexivity.
  split; [exact He|]. split.
  - exact (proj2 (proj2 (proj2
      (AddRule_idempotent_DeleteRule "s1" (VAddr Demo.h1) Demo.h4 80 true true
         (Demo.blank 0)))) He).
  - apply (proj1 (proj2 (proj2
      (AddRule_idempotent_DeleteRule "s1" (VAddr Demo.h1) Demo.h4 0 true true
         (Demo.blank 0))))).
    intros k _ _. apply lookup_empty.
Defined.

(** The learning scenario: with an empty learning table and no hold-down,
    a frame from [macA] on port 1 to the unknown [macB] is flooded, and
    [macA] is recorded on port 1. *)
Example unknown_destination_floods_and_learns :
  sent (connection (self (exec (Demo.handle Demo.arp_event 100)
                            (Demo.fresh 0))))
    = [PacketOut {| po_actions := [ofp_action_output OFPP_FLOOD];
                    po_data := Some {| pi_buffer_id := Some 7; pi_data := [] |};
                    po_buffer_id := None;
                    po_in_port := Some 1 |}]
  ∧ map_to_list (macToPort (self (exec (Demo.handle Demo.arp_event 100)
                                    (Demo.fresh 0))))
    = [(Demo.macA, 1)].
Proof. vm_compute. split; reflexivity. Qed.



(** ** Further properties of the firewall table *)

Section Firewall_properties.

Context {EthAddr : Type} {EthAddr_eq_dec : EqDecision EthAddr}
  {EthAddr_countable : Countable EthAddr}.

Implicit Types (w : World (EthAddr := EthAddr)) (fw : gmap key bool).
Implicit Types (d : string) (s : pyvalue) (t : IPAddr) (p : Z) (v : bool).

(** Every key starts with the switch. *)
Lemma rule_key_head d s t p : ∃ tl, rule_key d s t p = VStr d :: tl.
Proof.
  unfold rule_key. case_bool_decide; [|destruct (py_eq s (VInt 0))]; eauto.
Qed.

(** The selected key is a destination-service key for port 0 only when
    the rule has destination 0.0.0.0 and port 0. *)
Lemma rule_key_ne_port_zero_service d s t p d' t' :
  t ≠ 0 ∨ p ≠ 0 →
  rule_key d s t p ≠ dest_service_key d' t' 0.
Proof.
  intros H. unfold rule_key.
  case_bool_decide as Hp; [|destruct (py_eq s (VInt 0))].
  - apply host_pair_ne_dest_service. destruct H; [by left | done].
  - unfold dest_service_key. congruence.
  - apply full_tuple_ne_dest_service.
Qed.

(** Over a table whose entries are [True], [CheckRule] answers block
    exactly when one of the two keys it reads is present. *)
Lemma CheckRule_blocks_iff d s t p w :
  firewall_wf (firewall (self w)) →
  eval (CheckRule d s t p) w = Ok true
  ↔ is_Some (firewall (self w) !! host_pair_key d s t)
    ∨ is_Some (firewall (self w) !! dest_service_key d t p).
Proof.
  intros Hwf. unfold eval.
  destruct (firewall (self w) !! host_pair_key d s t) as [e|] eqn:E1.
  { rewrite (firewall_wf_lookup _ _ _ Hwf E1) in E1.
    rewrite (CheckRule_host_pair d s t p w true E1). cbn.
    split; [intros _; left; eauto | done]. }
  destruct (firewall (self w) !! dest_service_key d t p) as [e|] eqn:E2.
  { rewrite (firewall_wf_lookup _ _ _ Hwf E2) in E2.
    rewrite (CheckRule_dest_service d s t p w true E1 E2). cbn.
    split; [intros _; right; eauto | done]. }
  rewrite (CheckRule_default d s t p w E1 E2). cbn.
  split; [done | intros [[? [=]]|[? [=]]]].
Qed.

Lemma CheckRule_allows_iff d s t p w :
  eval (CheckRule d s t p) w = Ok false
  ↔ eval (CheckRule d s t p) w ≠ Ok true.
Proof.
  destruct (CheckRule_run d s t p w) as ([|] & l & E);
    unfold eval; rewrite E; cbn; split; congruence.
Qed.

Lemma AddRule_no_port_zero d s t p v w :
  t ≠ 0 ∨ p ≠ 0 →
  no_port_zero_service (firewall (self w)) →
  no_port_zero_service (firewall (self (exec (AddRule d s t p v) w))).
Proof.
  intros H Hz d' t'. rewrite AddRule_firewall.
  rewrite lookup_insert_ne by by apply rule_key_ne_port_zero_service.
  apply Hz.
Qed.

Lemma DeleteRule_no_port_zero d s t p w :
  no_port_zero_service (firewall (self w)) →
  no_port_zero_service (firewall (self (exec (DeleteRule d s t p) w))).
Proof.
  intros Hz d' t'. rewrite DeleteRule_firewall.
  apply lookup_delete_None. right. apply Hz.
Qed.

(** X1. [DeleteRule] for a rule that is not in the table returns
    normally: the [KeyError] is caught, one error record is logged, and
    nothing else changes. *)
Theorem DeleteRule_missing_key d s t p w :
  firewall (self w) !! rule_key d s t p = None →
  DeleteRule d s t p w
  = (Ok (), add_log [(ERROR, "Cannot find Rule %s -> %s,%s in %s")] w).
Proof.
  unfold DeleteRule, rule_key.
  case_bool_decide; [|destruct (py_eq s (VInt 0))];
    intros E; run_monad; rewrite E; reflexivity.
Qed.

(** X2. [AddRule] and [DeleteRule] write one key of the table, the one
    selected by their arguments, and leave every other key as it was. *)
Theorem rule_methods_write_one_key d s t p v w :
  firewall (self (exec (AddRule d s t p v) w)) !! rule_key d s t p = Some true
  ∧ firewall (self (exec (DeleteRule d s t p) w)) !! rule_key d s t p = None
  ∧ (∀ k, k ≠ rule_key d s t p →
       firewall (self (exec (AddRule d s t p v) w)) !! k
         = firewall (self w) !! k
       ∧ firewall (self (exec (DeleteRule d s t p) w)) !! k
         = firewall (self w) !! k).
Proof.
  rewrite AddRule_firewall, DeleteRule_firewall.
  split; [apply lookup_insert_eq|]. split; [apply lookup_delete_eq|].
  intros k Hk. split.
  - by apply lookup_insert_ne.
  - by apply lookup_delete_ne.
Qed.

(** X3. Adding a rule that was absent and deleting it again gives back
    the table; deleting a rule that was present and adding it again gives
    back the table. *)
Theorem AddRule_DeleteRule_round_trip d s t p v w :
  (firewall (self w) !! rule_key d s t p = None →
   firewall (self (exec (DeleteRule d s t p) (exec (AddRule d s t p v) w)))
   = firewall (self w))
  ∧ (firewall (self w) !! rule_key d s t p = Some true →
     firewall (self (exec (AddRule d s t p v) (exec (DeleteRule d s t p) w)))
     = firewall (self w)).
Proof.
  split; intros E.
  - rewrite DeleteRule_firewall, AddRule_firewall.
    by apply delete_insert_id.
  - rewrite AddRule_firewall, DeleteRule_firewall.
    by apply insert_delete_id.
Qed.

(** X4. The table does not depend on the order in which rules are added,
    and adding one rule commutes with deleting a different one. *)
Theorem rule_order_is_irrelevant d1 s1 t1 p1 v1 d2 s2 t2 p2 v2 w :
  firewall (self (exec (AddRule d2 s2 t2 p2 v2)
                    (exec (AddRule d1 s1 t1 p1 v1) w)))
  = firewall (self (exec (AddRule d1 s1 t1 p1 v1)
                      (exec (AddRule d2 s2 t2 p2 v2) w)))
  ∧ (rule_key d1 s1 t1 p1 ≠ rule_key d2 s2 t2 p2 →
     firewall (self (exec (DeleteRule d2 s2 t2 p2)
                       (exec (AddRule d1 s1 t1 p1 v1) w)))
     = firewall (self (exec (AddRule d1 s1 t1 p1 v1)
                         (exec (DeleteRule d2 s2 t2 p2) w)))).
Proof.
  split.
  - rewrite !AddRule_firewall.
    destruct (decide (rule_key d2 s2 t2 p2 = rule_key d1 s1 t1 p1)) as [->|Hne].
    + done.
    + by apply insert_insert_ne.
  - intros Hne.
    rewrite DeleteRule_firewall, !AddRule_firewall, DeleteRule_firewall.
    by apply delete_insert_ne.
Qed.

(** X5. Rules are scoped by switch: adding or deleting a rule of one
    switch never changes what [CheckRule] answers for another switch. *)
Theorem rules_are_scoped_by_switch d s t p v d' s' t' p' w :
  d' ≠ d →
  eval (CheckRule d' s' t' p') (exec (AddRule d s t p v) w)
    = eval (CheckRule d' s' t' p') w
  ∧ eval (CheckRule d' s' t' p') (exec (DeleteRule d s t p) w)
    = eval (CheckRule d' s' t' p') w.
Proof.
  intros Hd. destruct (rule_key_head d s t p) as [tl E].
  assert (H1 : host_pair_key d' s' t' ≠ rule_key d s t p).
  { rewrite E. unfold host_pair_key. congruence. }
  assert (H2 : dest_service_key d' t' p' ≠ rule_key d s t p).
  { rewrite E. unfold dest_service_key. congruence. }
  split; apply CheckRule_eval_ext;
    rewrite ?AddRule_firewall, ?DeleteRule_firewall;
    first [by apply lookup_insert_ne | by apply lookup_delete_ne].
Qed.

(** X6. Over a table whose entries are [True]: after [AddRule] a lookup
    is blocked exactly when it was blocked before or one of the two keys
    it reads is the key just added, so adding a rule never unblocks
    anything; and a lookup blocked after [DeleteRule] was blocked before,
    so deleting a rule never blocks anything. *)
Theorem AddRule_only_blocks_DeleteRule_only_allows d s t p v d' s' t' p' w :
  firewall_wf (firewall (self w)) →
  (eval (CheckRule d' s' t' p') (exec (AddRule d s t p v) w) = Ok true
   ↔ eval (CheckRule d' s' t' p') w = Ok true
     ∨ host_pair_key d' s' t' = rule_key d s t p
     ∨ dest_service_key d' t' p' = rule_key d s t p)
  ∧ (eval (CheckRule d' s' t' p') (exec (DeleteRule d s t p) w) = Ok true →
     eval (CheckRule d' s' t' p') w = Ok true).
Proof.
  intros Hwf.
  pose proof (AddRule_wf d s t p v w Hwf) as Hwf1.
  pose proof (DeleteRule_wf d s t p w Hwf) as Hwf2.
  rewrite !CheckRule_blocks_iff by done.
  rewrite AddRule_firewall, DeleteRule_firewall.
  split; [split|].
  - intros [[e He]|[e He]]; apply lookup_insert_Some in He;
      destruct He as [[<- _]|[_ He]]; eauto.
  - intros [[[e He]|[e He]]|[->| ->]];
      rewrite ?lookup_insert_eq; eauto.
    + left. destruct (decide (rule_key d s t p = host_pair_key d' s' t'))
        as [->|Hne]; [rewrite lookup_insert_eq | rewrite lookup_insert_ne];
        eauto.
    + right. destruct (decide (rule_key d s t p = dest_service_key d' t' p'))
        as [->|Hne]; [rewrite lookup_insert_eq | rewrite lookup_insert_ne];
        eauto.
  - intros [[e He]|[e He]]; apply lookup_delete_Some in He;
      destruct He as [_ He]; eauto.
Qed.

(** X7. A host-pair rule is directional: added to an empty table, the
    rule for source [a] and destination [b] blocks [a -> b] on every port
    and leaves the reverse direction [b -> a] allowed, in all cases but
    one: when [b] is 0.0.0.0 and the reverse lookup is made with port 0,
    the destination-service key it reads, [(dpidstr, a, 0)], is the
    stored key, and it is blocked. *)
Theorem host_pair_rule_is_directional d (a b : IPAddr) v p w :
  firewall (self w) = ∅ →
  a ≠ b →
  eval (CheckRule d (VAddr a) b p) (exec (AddRule d (VAddr a) b 0 v) w)
    = Ok true
  ∧ (eval (CheckRule d (VAddr b) a p) (exec (AddRule d (VAddr a) b 0 v) w)
     = Ok false
     ↔ b ≠ 0 ∨ p ≠ 0).
Proof.
  intros Hempty Hab.
  assert (Hwf : firewall_wf (firewall (self w)))
    by (rewrite Hempty; apply map_Forall_empty).
  assert (Hk : rule_key d (VAddr a) b 0 = host_pair_key d (VAddr a) b)
    by reflexivity.
  pose proof (AddRule_wf d (VAddr a) b 0 v w Hwf) as Hwf1.
  split.
  - apply CheckRule_blocks_iff; [done|]. left.
    rewrite AddRule_firewall, Hk, lookup_insert_eq. eauto.
  - rewrite CheckRule_allows_iff, CheckRule_blocks_iff by done.
    rewrite AddRule_firewall, Hk, Hempty. split.
    + intros Hnb.
      destruct (decide (b = 0)) as [->|Hb]; [|by left].
      destruct (decide (p = 0)) as [->|Hp]; [|by right].
      exfalso. apply Hnb. right.
      assert (host_pair_key d (VAddr a) 0 = dest_service_key d a 0) as ->
        by by apply host_pair_eq_dest_service.
      rewrite lookup_insert_eq. eauto.
    + intros Hbp [[e He]|[e He]]; apply lookup_insert_Some in He;
        destruct He as [[He _]|[_ He]];
        try (by rewrite lookup_empty in He).
      * unfold host_pair_key in He. injection He as E1 E2.
        apply as_key_addr_inj in E1. congruence.
      * apply host_pair_eq_dest_service in He as (_ & _ & -> & ->).
        by destruct Hbp.
Qed.

(** X8. A destination-service rule matches its destination and port
    only: added to an empty table, the rule for destination [t] and port
    [p] blocks a lookup with an address as source exactly when the lookup
    is for the same switch, destination and port. *)
Theorem dest_service_rule_matches_only_its_port d t p v d' (a : IPAddr) t' p' w :
  firewall (self w) = ∅ →
  p ≠ 0 →
  eval (CheckRule d' (VAddr a) t' p') (exec (AddRule d (VInt 0) t p v) w)
    = Ok true
  ↔ d' = d ∧ t' = t ∧ p' = p.
Proof.
  intros Hempty Hp.
  assert (Hwf : firewall_wf (firewall (self w)))
    by (rewrite Hempty; apply map_Forall_empty).
  assert (Hk : rule_key d (VInt 0) t p = dest_service_key d t p).
  { unfold rule_key. by rewrite bool_decide_eq_false_2. }
  pose proof (AddRule_wf d (VInt 0) t p v w Hwf) as Hwf1.
  rewrite CheckRule_blocks_iff by done.
  rewrite AddRule_firewall, Hk, Hempty. split.
  - intros [[e He]|[e He]]; apply lookup_insert_Some in He;
      destruct He as [[He _]|[_ He]];
      try (by rewrite lookup_empty in He).
    + symmetry in He. by apply host_pair_eq_dest_service in He as (_ & _ & _ & ?).
    + unfold dest_service_key in He. injection He as -> E ->.
      apply as_key_addr_inj in E. done.
  - intros (-> & -> & ->). right. rewrite lookup_insert_eq. eauto.
Qed.

(** X9. [CheckRule] changes nothing but the log, to which it appends
    one record (host-pair hit) or two. *)
Theorem CheckRule_changes_only_the_log d s t p w :
  ∃ b l,
    CheckRule d s t p w = (Ok b, add_log l w)
    ∧ self (exec (CheckRule d s t p) w) = self w
    ∧ _flood_delay (exec (CheckRule d s t p) w) = _flood_delay w
    ∧ (length l = 1 ∨ length l = 2)%nat.
Proof.
  destruct (firewall (self w) !! host_pair_key d s t) as [e|] eqn:E1.
  { eexists _, _. unfold exec.
    rewrite (CheckRule_host_pair d s t p w e E1). cbn. auto. }
  destruct (firewall (self w) !! dest_service_key d t p) as [e|] eqn:E2.
  { eexists _, _. unfold exec.
    rewrite (CheckRule_dest_service d s t p w e E1 E2). cbn. auto. }
  eexists _, _. unfold exec.
  rewrite (CheckRule_default d s t p w E1 E2). cbn. auto.
Qed.

(** X10. A lookup with [dstport = 0], as the handler makes for an IPv4
    packet without TCP segment, is decided by the host-pair key alone in
    every table without a destination-service key for port 0 (a key
    [AddRule] stores only for destination 0.0.0.0 with port 0).  In such
    a table, after [DeleteRule] of a host-pair rule [CheckRule] on the
    identical arguments answers allow. *)
Theorem port_zero_lookup_reads_host_pair_only d s t w :
  firewall_wf (firewall (self w)) →
  no_port_zero_service (firewall (self w)) →
  (eval (CheckRule d s t 0) w = Ok true
   ↔ is_Some (firewall (self w) !! host_pair_key d s t))
  ∧ eval (CheckRule d s t 0) (exec (DeleteRule d s t 0) w) = Ok false.
Proof.
  intros Hwf Hz. split.
  - rewrite CheckRule_blocks_iff by done. rewrite Hz.
    split; [intros [?|[? [=]]]; done | auto].
  - apply CheckRule_allows_iff.
    rewrite CheckRule_blocks_iff by by apply DeleteRule_wf.
    rewrite (DeleteRule_no_port_zero d s t 0 w Hz).
    rewrite DeleteRule_firewall.
    assert (rule_key d s t 0 = host_pair_key d s t) as -> by reflexivity.
    rewrite lookup_delete_eq. intros [[? [=]]|[? [=]]].
Qed.

End Firewall_properties.

(** ** Further properties of the packet-in handler *)

(** Two worlds built from the same one by field updates. *)
Ltac same_world :=
  repeat match goal with w := _ : World |- _ => subst w end;
  repeat match goal with
         | w : World |- _ =>
             destruct w as [[[?dp ?ct ?sn] ?tr ?m ?fw ?h] ?fd ?lg]
         end;
  unfold learn, emit, add_log, add_sent, set_self, set_sent,
    set_hold_down_expired, set_macToPort, set_firewall; cbn;
  rewrite ?app_nil_r, <- ?app_assoc; try reflexivity.

Section Handler_properties.

Context {EthAddr : Type} {EthAddr_eq_dec : EqDecision EthAddr}
  {EthAddr_countable : Countable EthAddr}.
Variable is_multicast : EthAddr → bool.
Variable isBridgeFiltered : EthAddr → bool.
Variable LLDP_TYPE : Z.
Variable dpid_to_str : Z → string.

Implicit Types (w : World (EthAddr := EthAddr)).
Implicit Types (event : Event (EthAddr := EthAddr)).
Implicit Types (ls : list (ofp_message (EthAddr := EthAddr))).
Implicit Types (ll : list LogRecord).

Local Abbreviation handle :=
  (_handle_PacketIn is_multicast isBridgeFiltered LLDP_TYPE dpid_to_str).
Local Abbreviation forward :=
  (forwarding_stage is_multicast isBridgeFiltered LLDP_TYPE).
Local Abbreviation dpidstr_of w := (dpid_to_str (dpid (connection (self w)))).

Lemma drop_none_run event w :
  drop event None w = (Ok (), emit (discard_buffer event) [] w).
Proof.
  unfold drop, discard_buffer. destruct (pi_buffer_id (ofp event));
    run_monad; apply f_equal; same_world.
Qed.

(** The firewall stage sends the discard message exactly when it makes
    the handler return. *)
Lemma firewall_stage_exact event dpidstr w :
  ∃ (b : bool) ll,
    firewall_stage event dpidstr w
    = (Ok b, emit (if b then discard_buffer event else []) ll w)
    ∧ firewall_verdict event dpidstr w = Ok b.
Proof.
  unfold firewall_stage, firewall_verdict.
  destruct (next (parsed event)) as [srcip dstip segmant | | | ].
  - set (w1 := add_log [(DEBUG, "%i IP %s => %s")] w).
    destruct (CheckRule_run dpidstr (VAddr srcip) dstip (default 0 segmant) w1)
      as (b & l & E).
    assert (V : eval (CheckRule dpidstr (VAddr srcip) dstip
                        (default 0 segmant)) w = Ok b).
    { rewrite <- (CheckRule_eval_ext dpidstr (VAddr srcip) dstip
                    (default 0 segmant) w w1 eq_refl eq_refl).
      unfold eval. by rewrite E. }
    exists b, ([(DEBUG, "%i IP %s => %s")] ++ l). split; [|exact V].
    assert (G :
      (blocked ← CheckRule dpidstr (VAddr srcip) dstip (default 0 segmant);
       if bool_decide (blocked = true) then drop event None;; mret true
       else mret false) w1
      = (Ok b, emit (if b then discard_buffer event else [])
                 ([(DEBUG, "%i IP %s => %s")] ++ l) w)).
    { run_monad. rewrite E. cbn. destruct b.
      - rewrite bool_decide_eq_true_2 by done. rewrite drop_none_run.
        apply f_equal. unfold w1. same_world.
      - rewrite bool_decide_eq_false_2 by done.
        apply f_equal. unfold w1. same_world. }
    rewrite <- G. destruct segmant; reflexivity.
  - exists false, [(DEBUG, "%i ARP %s %s => %s")]. split; [|done].
    run_monad. apply f_equal. same_world.
  - exists true, []. split; [|done]. run_monad. by rewrite drop_none_run.
  - exists false, []. split; [|done]. run_monad. apply f_equal. same_world.
Qed.

Lemma firewall_verdict_learn event event' dpidstr w :
  firewall_verdict event dpidstr (learn event' w)
  = firewall_verdict event dpidstr w.
Proof. by apply firewall_verdict_ext. Qed.

(** The handler when the firewall stage returns, and when it does not. *)
Lemma handle_returned event time_time w :
  firewall_verdict event (dpidstr_of w) w = Ok true →
  ∃ ll, handle event time_time w
        = (Ok (), emit (discard_buffer event) ll (learn event w)).
Proof.
  intros V. unfold _handle_PacketIn. run_monad.
  fold (learn event w).
  destruct (firewall_stage_exact event (dpidstr_of w) (learn event w))
    as (b & ll & E & V').
  rewrite firewall_verdict_learn, V in V'. injection V' as <-.
  rewrite E. by exists ll.
Qed.

Lemma handle_passed event time_time w :
  firewall_verdict event (dpidstr_of w) w = Ok false →
  ∃ ll, handle event time_time w
        = forward event time_time (add_log ll (learn event w)).
Proof.
  intros V. unfold _handle_PacketIn. run_monad.
  fold (learn event w).
  destruct (firewall_stage_exact event (dpidstr_of w) (learn event w))
    as (b & ll & E & V').
  rewrite firewall_verdict_learn, V in V'. injection V' as <-.
  rewrite E. exists ll. f_equal. same_world.
Qed.

Lemma link_local_gate_learn event event' ll w :
  link_local_gate isBridgeFiltered LLDP_TYPE event (add_log ll (learn event' w))
  = link_local_gate isBridgeFiltered LLDP_TYPE event w.
Proof. reflexivity. Qed.

(** The four ways through steps 2 to 6. *)
Lemma forward_gated event time_time w :
  link_local_gate isBridgeFiltered LLDP_TYPE event w = true →
  forward event time_time w = (Ok (), emit (discard_buffer event) [] w).
Proof.
  unfold link_local_gate, forwarding_stage. intros G. run_monad.
  rewrite G. apply drop_none_run.
Qed.

Lemma forward_flood event time_time w :
  link_local_gate isBridgeFiltered LLDP_TYPE event w = false →
  is_multicast (dst (parsed event)) = true
  ∨ macToPort (self w) !! dst (parsed event) = None →
  ∃ message, forward event time_time w = flood event time_time message w.
Proof.
  unfold link_local_gate, forwarding_stage. intros G Hd. run_monad.
  rewrite G. destruct (is_multicast (dst (parsed event))); [by eexists|].
  destruct Hd as [[=] | ->]. by eexists.
Qed.

Lemma forward_known event time_time w port_ :
  link_local_gate isBridgeFiltered LLDP_TYPE event w = false →
  is_multicast (dst (parsed event)) = false →
  macToPort (self w) !! dst (parsed event) = Some port_ →
  forward event time_time w
  = if bool_decide (port_ = port event) then
      (Ok (),
       emit [FlowMod {| fm_match := Some (from_packet (parsed event) None);
                        fm_idle_timeout := 10;
                        fm_hard_timeout := 10;
                        fm_actions := [];
                        fm_buffer_id := pi_buffer_id (ofp event);
                        fm_data := None |}]
         [(WARNING, "Same port for packet from %s -> %s on %s.%s.  Drop.")] w)
    else
      (Ok (),
       emit [FlowMod {| fm_match :=
                          Some (from_packet (parsed event) (Some (port event)));
                        fm_idle_timeout := 10;
                        fm_hard_timeout := 30;
                        fm_actions := [ofp_action_output port_];
                        fm_buffer_id := None;
                        fm_data := Some (ofp event) |}]
         [(DEBUG, "installing flow for %s.%i -> %s.%i")] w).
Proof.
  unfold link_local_gate, forwarding_stage. intros G Hm Hd. run_monad.
  rewrite G, Hm, Hd. destruct (bool_decide (port_ = port event)); run_monad.
  - rewrite drop_duration_run. apply f_equal. same_world.
  - apply f_equal. same_world.
Qed.

(** X11. An IPv6 packet is always dropped, whatever the firewall table,
    the learning table and the mode are: the handler records the source,
    releases the buffer of the packet-in if there is one, and sends and
    logs nothing else. *)
Theorem ipv6_is_always_dropped event time_time w :
  next (parsed event) = ipv6 →
  handle event time_time w
  = (Ok (), emit (discard_buffer event) [] (learn event w)).
Proof.
  intros Hn. unfold _handle_PacketIn, firewall_stage. run_monad.
  rewrite Hn. run_monad. fold (learn event w).
  by rewrite drop_none_run.
Qed.

(** X12. An IPv4 packet for which [CheckRule] answers block is dropped
    for this once: the handler releases the buffer if there is one, and
    installs no flow and floods nothing.  The port looked up is the TCP
    destination port, or [0] without TCP segment. *)
Theorem blocked_ipv4_is_dropped event time_time w srcip dstip segmant :
  next (parsed event) = ipv4 srcip dstip segmant →
  eval (CheckRule (dpidstr_of w) (VAddr srcip) dstip (default 0 segmant)) w
    = Ok true →
  ∃ ll, handle event time_time w
        = (Ok (), emit (discard_buffer event) ll (learn event w)).
Proof.
  intros Hn Hb. apply handle_returned.
  unfold firewall_verdict. by rewrite Hn.
Qed.


(** X14. A frame that got through the firewall stage and the link-local
    test, and whose destination is multicast or has no entry in the
    learning table, is flooded: one packet-out is sent, with the flood
    action once the hold-down is over. *)
Theorem unknown_or_multicast_is_flooded event time_time w :
  firewall_verdict event (dpidstr_of w) w = Ok false →
  link_local_gate isBridgeFiltered LLDP_TYPE event w = false →
  is_multicast (dst (parsed event)) = true
  ∨ <[src (parsed event) := port event]> (macToPort (self w))
      !! dst (parsed event) = None →
  ∃ ll,
    handle event time_time w
    = (Ok (),
       emit [PacketOut
               {| po_actions := if flood_elapsed time_time w
                                then [ofp_action_output OFPP_FLOOD] else [];
                  po_data := Some (ofp event);
                  po_buffer_id := None;
                  po_in_port := Some (port event) |}] ll
         (set_self
            (set_hold_down_expired
               (hold_down_expired (self w) || flood_elapsed time_time w))
            (learn event w))).
Proof.
  intros V G Hd.
  destruct (handle_passed event time_time w V) as (ll & E).
  destruct (forward_flood event time_time (add_log ll (learn event w)))
    as (message & F); [by rewrite link_local_gate_learn | exact Hd |].
  exists (ll ++ (if flood_elapsed time_time w then
     (if hold_down_expired (self w) then []
      else [(INFO, "%s: Flood hold-down expired -- flooding")])
     ++ match message with Some m => [(DEBUG, m)] | None => [] end
   else [])).
  rewrite E, F, flood_run. apply f_equal.
  assert (flood_elapsed time_time (add_log ll (learn event w))
          = flood_elapsed time_time w) as -> by reflexivity.
  assert (hold_down_expired (self (add_log ll (learn event w)))
          = hold_down_expired (self w)) as -> by reflexivity.
  generalize (flood_elapsed time_time w). intros e.
  generalize (hold_down_expired (self w)). intros b.
  same_world.
Qed.

(** X15. A unicast frame that got through the firewall stage and the
    link-local test, and whose destination was learned on a port other
    than the ingress port, makes the handler install one flow: match from
    the packet and the ingress port, idle timeout 10, hard timeout 30,
    output to the learned port, carrying the packet-in. *)
Theorem known_destination_is_forwarded event time_time w port_ :
  firewall_verdict event (dpidstr_of w) w = Ok false →
  link_local_gate isBridgeFiltered LLDP_TYPE event w = false →
  is_multicast (dst (parsed event)) = false →
  <[src (parsed event) := port event]> (macToPort (self w))
    !! dst (parsed event) = Some port_ →
  port_ ≠ port event →
  ∃ ll,
    handle event time_time w
    = (Ok (),
       emit [FlowMod {| fm_match :=
                          Some (from_packet (parsed event) (Some (port event)));
                        fm_idle_timeout := 10;
                        fm_hard_timeout := 30;
                        fm_actions := [ofp_action_output port_];
                        fm_buffer_id := None;
                        fm_data := Some (ofp event) |}]
         (ll ++ [(DEBUG, "installing flow for %s.%i -> %s.%i")])
         (learn event w)).
Proof.
  intros V G Hm Hd Hp.
  destruct (handle_passed event time_time w V) as (ll & E).
  exists ll. rewrite E.
  rewrite (forward_known event time_time _ port_);
    [|by rewrite link_local_gate_learn|done|exact Hd].
  rewrite bool_decide_eq_false_2 by done. apply f_equal. same_world.
Qed.

(** X16. Because the source is recorded before the destination is looked
    up, a unicast frame addressed to its own source that gets through the
    firewall stage and the link-local test is never flooded nor
    forwarded: it always ends in the discard flow of the loop guard. *)
Theorem self_addressed_frame_is_discarded event time_time w :
  dst (parsed event) = src (parsed event) →
  firewall_verdict event (dpidstr_of w) w = Ok false →
  link_local_gate isBridgeFiltered LLDP_TYPE event w = false →
  is_multicast (dst (parsed event)) = false →
  ∃ ll,
    handle event time_time w
    = (Ok (),
       emit [FlowMod {| fm_match := Some (from_packet (parsed event) None);
                        fm_idle_timeout := 10;
                        fm_hard_timeout := 10;
                        fm_actions := [];
                        fm_buffer_id := pi_buffer_id (ofp event);
                        fm_data := None |}]
         (ll ++ [(WARNING,
                  "Same port for packet from %s -> %s on %s.%s.  Drop.")])
         (learn event w)).
Proof.
  intros Hs V G Hm.
  destruct (handle_passed event time_time w V) as (ll & E).
  exists ll. rewrite E.
  rewrite (forward_known event time_time _ (port event));
    [|by rewrite link_local_gate_learn|done|].
  - rewrite bool_decide_eq_true_2 by done. apply f_equal. same_world.
  - cbn. rewrite Hs. apply lookup_insert_eq.
Qed.

(** Steps 2 to 6 do not read the firewall table. *)
Lemma forward_set_firewall event time_time f w :
  forward event time_time (set_self (set_firewall f) w)
  = (fst (forward event time_time w),
     set_self (set_firewall f) (snd (forward event time_time w))).
Proof.
  destruct (link_local_gate isBridgeFiltered LLDP_TYPE event w) eqn:G.
  { rewrite !forward_gated by done. cbn. apply f_equal. same_world. }
  destruct (is_multicast (dst (parsed event))) eqn:Hm.
  { destruct (forward_flood event time_time w G (or_introl Hm)) as (m1 & F1).
    unfold forwarding_stage in *. revert F1. run_monad.
    fold (link_local_gate isBridgeFiltered LLDP_TYPE event w).
    rewrite G, Hm. intros _. rewrite !flood_run. cbn. apply f_equal.
    unfold flood_elapsed. same_world. }
  destruct (macToPort (self w) !! dst (parsed event)) as [port_|] eqn:Hd.
  - rewrite !(forward_known event time_time _ port_) by done.
    destruct (bool_decide (port_ = port event)); cbn; apply f_equal;
      same_world.
  - unfold forwarding_stage. run_monad.
    fold (link_local_gate isBridgeFiltered LLDP_TYPE event w).
    rewrite G, Hm, Hd. rewrite !flood_run. cbn. apply f_equal.
    unfold flood_elapsed. same_world.
Qed.

(** X17. The firewall does not apply to ARP, nor to any frame that is
    neither IPv4 nor IPv6: for such a frame the handler does the same
    whatever the firewall table holds, and leaves the table as it is. *)
Theorem arp_is_not_filtered event time_time f w :
  (∃ opcode protosrc protodst,
     next (parsed event) = arp opcode protosrc protodst)
  ∨ next (parsed event) = other →
  handle event time_time (set_self (set_firewall f) w)
  = (fst (handle event time_time w),
     set_self (set_firewall f) (snd (handle event time_time w))).
Proof.
  intros Hn.
  assert (∃ ll, ∀ x,
    handle event time_time x
    = forward event time_time (add_log ll (learn event x))) as (ll & E).
  { unfold _handle_PacketIn, firewall_stage.
    destruct Hn as [(o & a & b & ->)| ->].
    - exists [(DEBUG, "%i ARP %s %s => %s")]. intros x. run_monad.
      f_equal.
    - exists []. intros x. run_monad. f_equal. same_world. }
  rewrite !E.
  assert (add_log ll (learn event (set_self (set_firewall f) w))
          = set_self (set_firewall f) (add_log ll (learn event w))) as ->
    by same_world.
  apply forward_set_firewall.
Qed.

(** X18. For an IPv4 packet without TCP segment the firewall stage looks
    up port [0]; over a table whose entries are [True] and which holds no
    destination-service key for port 0, it stops the packet exactly when
    the host-pair key of its addresses is present.  Destination-service
    rules therefore apply to TCP only. *)
Theorem non_tcp_ipv4_reads_host_pair_only event dpidstr srcip dstip w :
  next (parsed event) = ipv4 srcip dstip None →
  firewall_wf (firewall (self w)) →
  no_port_zero_service (firewall (self w)) →
  eval (firewall_stage event dpidstr) w = Ok true
  ↔ is_Some (firewall (self w) !! host_pair_key dpidstr (VAddr srcip) dstip).
Proof.
  intros Hn Hwf Hz.
  destruct (firewall_stage_exact event dpidstr w) as (b & ll & E & V).
  unfold eval. rewrite E. cbn. rewrite <- V.
  unfold firewall_verdict. rewrite Hn. cbn.
  rewrite CheckRule_blocks_iff by done. rewrite Hz.
  split; [intros [?|[? [=]]]; done | auto].
Qed.

End Handler_properties.

(** ** Sessions: construction, sequences of calls, launch *)

Section Session_properties.

Context {EthAddr : Type} {EthAddr_eq_dec : EqDecision EthAddr}
  {EthAddr_countable : Countable EthAddr}.
Variable is_multicast : EthAddr → bool.
Variable isBridgeFiltered : EthAddr → bool.
Variable LLDP_TYPE : Z.
Variable dpid_to_str : Z → string.

Implicit Types (w : World (EthAddr := EthAddr)).
Implicit Types (event : Event (EthAddr := EthAddr)).
Implicit Types (c : call (EthAddr := EthAddr)).
Implicit Types (cs : list (call (EthAddr := EthAddr))).

Local Abbreviation handle :=
  (_handle_PacketIn is_multicast isBridgeFiltered LLDP_TYPE dpid_to_str).
Local Abbreviation run :=
  (run_calls is_multicast isBridgeFiltered LLDP_TYPE dpid_to_str).

Lemma evolves_refl w : evolves 0 w w.
Proof.
  repeat split; try done.
  - exists []. by rewrite app_nil_r.
  - exists []. by rewrite app_nil_r.
Qed.

Lemma evolves_trans n1 n2 w1 w2 w3 :
  evolves n1 w1 w2 → evolves n2 w2 w3 → evolves (n1 + n2) w1 w3.
Proof.
  intros (A1 & A2 & A3 & A4 & A5 & (ls1 & A6 & L1) & (ll1 & A7) & A8)
         (B1 & B2 & B3 & B4 & B5 & (ls2 & B6 & L2) & (ll2 & B7) & B8).
  repeat split; try congruence; auto.
  - exists (ls1 ++ ls2). rewrite B6, A6, app_assoc, length_app.
    split; [done | lia].
  - exists (ll1 ++ ll2). by rewrite B7, A7, app_assoc.
  - set_solver.
Qed.

Lemma evolves_log_only n l w : evolves n w (add_log l w).
Proof.
  repeat split; try done.
  - exists []. cbn. rewrite app_nil_r. split; [done | cbn; lia].
  - by exists l.
Qed.

(** One call. *)
Lemma run_call_step c w :
  ∃ w',
    run_call is_multicast isBridgeFiltered LLDP_TYPE dpid_to_str c w
      = (Ok (), w')
    ∧ evolves (if is_PacketIn c then 1 else 0) w w'
    ∧ (writes_firewall c = false → firewall (self w') = firewall (self w))
    ∧ (firewall_wf (firewall (self w)) → firewall_wf (firewall (self w')))
    ∧ (adds_null_destination c = false →
       no_port_zero_service (firewall (self w)) →
       no_port_zero_service (firewall (self w'))).
Proof.
  destruct c as [d s t p v | d s t p | d s t p | event time_time]; cbn.
  - destruct (AddRule_run d s t p v w) as (fmt & E).
    eexists. split; [exact E|].
    split; [|split; [done|split]].
    + repeat split; try done.
      * exists []. cbn. rewrite app_nil_r. split; [done | cbn; lia].
      * by eexists.
    + intros Hwf. pose proof (AddRule_wf d s t p v w Hwf) as X.
      unfold exec in X. by rewrite E in X.
    + intros Hn Hz.
      assert (Htp : t ≠ 0 ∨ p ≠ 0).
      { apply andb_false_iff in Hn as [Hn|Hn];
          apply bool_decide_eq_false in Hn; auto. }
      pose proof (AddRule_no_port_zero d s t p v w Htp Hz) as X.
      unfold exec in X. by rewrite E in X.
  - destruct (DeleteRule_run d s t p w) as (l & E).
    eexists. split; [exact E|].
    split; [|split; [done|split]].
    + repeat split; try done.
      * exists []. cbn. rewrite app_nil_r. split; [done | cbn; lia].
      * by eexists.
    + intros Hwf. pose proof (DeleteRule_wf d s t p w Hwf) as X.
      unfold exec in X. by rewrite E in X.
    + intros _ Hz. pose proof (DeleteRule_no_port_zero d s t p w Hz) as X.
      unfold exec in X. by rewrite E in X.
  - destruct (CheckRule_run d s t p w) as (b & l & E).
    exists (add_log l w). run_monad. rewrite E. cbn.
    split; [done|]. split; [apply evolves_log_only|]. done.
  - destruct (handle_PacketIn_run is_multicast isBridgeFiltered LLDP_TYPE
                dpid_to_str event time_time w) as (ls & ll & b & E & Hls & Hb).
    eexists. split; [exact E|].
    split; [|done].
    repeat split; try done.
    + exists ls. done.
    + by exists ll.
    + cbn. apply dom_insert_subseteq.
Qed.

(** Any sequence of calls. *)
Lemma run_calls_steps cs w :
  ∃ w',
    run cs w = (Ok (), w')
    ∧ evolves (length (List.filter is_PacketIn cs)) w w'
    ∧ (forallb (λ c, negb (writes_firewall c)) cs = true →
       firewall (self w') = firewall (self w))
    ∧ (firewall_wf (firewall (self w)) → firewall_wf (firewall (self w')))
    ∧ (forallb (λ c, negb (adds_null_destination c)) cs = true →
       no_port_zero_service (firewall (self w)) →
       no_port_zero_service (firewall (self w'))).
Proof.
  revert w. induction cs as [|c cs IH]; intros w.
  { exists w. split; [done|]. split; [apply evolves_refl | done]. }
  destruct (run_call_step c w) as (w1 & E1 & Ev1 & F1 & W1 & Z1).
  destruct (IH w1) as (w2 & E2 & Ev2 & F2 & W2 & Z2).
  exists w2. split; [|split; [|split; [|split]]].
  - cbn. run_monad. by rewrite E1.
  - cbn [List.filter]. destruct (is_PacketIn c); cbn [length].
    + exact (evolves_trans 1 _ _ _ _ Ev1 Ev2).
    + exact (evolves_trans 0 _ _ _ _ Ev1 Ev2).
  - cbn. intros [Hc Hcs]%andb_true_iff.
    rewrite F2, F1; [done| |done]. by destruct (writes_firewall c).
  - auto.
  - cbn. intros [Hc Hcs]%andb_true_iff Hz.
    apply Z2; [done|]. apply Z1; [|done].
    by destruct (adds_null_destination c).
Qed.

Lemma init_no_port_zero (c : Connection (EthAddr := EthAddr)) tr w :
  no_port_zero_service
    (firewall (self (exec (__init__ dpid_to_str c tr) w))).
Proof.
  intros d t. rewrite init_firewall.
  rewrite !lookup_insert_ne; [apply lookup_empty|..].
  - apply host_pair_ne_dest_service. left. vm_compute. discriminate.
  - unfold dest_service_key. congruence.
Qed.

(** The session the constructor builds. *)
Lemma new_session_state_aux (c : Connection (EthAddr := EthAddr)) tr w :
  self (exec (__init__ dpid_to_str c tr) w)
    = {| connection := c;
         transparent := tr;
         macToPort := ∅;
         firewall :=
           <[dest_service_key (dpid_to_str (dpid c)) (dotted 10 0 0 3) 80
               := true]>
             (<[host_pair_key (dpid_to_str (dpid c)) (VAddr (dotted 10 0 0 1))
                  (dotted 10 0 0 4) := true]> ∅);
         hold_down_expired := bool_decide (_flood_delay w = 0) |}
  ∧ _flood_delay (exec (__init__ dpid_to_str c tr) w) = _flood_delay w.
Proof.
  unfold __init__, exec. run_monad.
  set (w0 := set_self _ w).
  destruct (AddRule_run (dpid_to_str (dpid c)) (VAddr (dotted 10 0 0 1))
              (dotted 10 0 0 4) 0 true w0) as (f1 & E1).
  rewrite E1.
  match goal with |- context [AddRule ?d ?s ?t ?p ?v ?x] =>
    destruct (AddRule_run d s t p v x) as (f2 & E2); rewrite E2 end.
  cbn. done.
Qed.

(** X19. The constructor builds the session from its arguments and
    [_flood_delay] alone: whatever [self] was, the new session has the
    given connection and mode, an empty learning table, the two preloaded
    rules, and the hold-down flag set exactly when the delay is 0. *)
Theorem new_session_state (c : Connection (EthAddr := EthAddr)) tr w :
  eval (__init__ dpid_to_str c tr) w = Ok ()
  ∧ self (exec (__init__ dpid_to_str c tr) w)
    = {| connection := c;
         transparent := tr;
         macToPort := ∅;
         firewall :=
           <[dest_service_key (dpid_to_str (dpid c)) (dotted 10 0 0 3) 80
               := true]>
             (<[host_pair_key (dpid_to_str (dpid c)) (VAddr (dotted 10 0 0 1))
                  (dotted 10 0 0 4) := true]> ∅);
         hold_down_expired := bool_decide (_flood_delay w = 0) |}
  ∧ _flood_delay (exec (__init__ dpid_to_str c tr) w) = _flood_delay w.
Proof.
  unfold __init__, eval, exec. run_monad.
  set (w0 := set_self _ w).
  destruct (AddRule_run (dpid_to_str (dpid c)) (VAddr (dotted 10 0 0 1))
              (dotted 10 0 0 4) 0 true w0) as (f1 & E1).
  rewrite E1.
  match goal with |- context [AddRule ?d ?s ?t ?p ?v ?x] =>
    destruct (AddRule_run d s t p v x) as (f2 & E2); rewrite E2 end.
  cbn. done.
Qed.

(** X20. The policy of a new session: a lookup with an address as source
    is blocked exactly when it is for the switch of the connection and is
    either from 10.0.0.1 to 10.0.0.4, on any port, or to 10.0.0.3 on
    port 80, from any source. *)
Theorem new_session_policy (c : Connection (EthAddr := EthAddr)) tr w d
    (a b : IPAddr) p :
  eval (CheckRule d (VAddr a) b p) (exec (__init__ dpid_to_str c tr) w)
    = Ok true
  ↔ d = dpid_to_str (dpid c)
    ∧ ((a = dotted 10 0 0 1 ∧ b = dotted 10 0 0 4)
       ∨ (b = dotted 10 0 0 3 ∧ p = 80)).
Proof.
  assert (H4 : dotted 10 0 0 4 ≠ 0) by (vm_compute; discriminate).
  rewrite CheckRule_blocks_iff by apply init_wf.
  rewrite init_firewall. split.
  - intros [[e He]|[e He]];
      apply lookup_insert_Some in He; destruct He as [[He _]|[_ He]];
      try (apply lookup_insert_Some in He; destruct He as [[He _]|[_ He]]);
      try (by rewrite lookup_empty in He).
    + symmetry in He.
      by apply host_pair_eq_dest_service in He as (_ & _ & _ & [=]).
    + apply host_pair_key_inj in He as (<- & E1 & <-).
      apply as_key_addr_inj in E1 as <-. auto.
    + apply dest_service_key_inj in He as (<- & <- & <-). auto.
    + by apply host_pair_eq_dest_service in He as (_ & _ & ? & _).
  - intros (-> & [[-> ->]|[-> ->]]).
    + left. rewrite lookup_insert_ne.
      * rewrite lookup_insert_eq. eauto.
      * intros He. symmetry in He.
        by apply host_pair_eq_dest_service in He as (_ & _ & ? & _).
    + right. rewrite lookup_insert_eq. eauto.
Qed.

(** X21. In every state a session reaches from its construction by
    calls of [AddRule], [DeleteRule], [CheckRule] and the packet-in
    handler, no call raises and every entry of the firewall table is
    [True], so [CheckRule] answers block exactly when one of the two keys
    it reads is present.  Unless [AddRule] was called for destination
    0.0.0.0 with port 0, no destination-service key has port 0 either. *)
Theorem reachable_sessions_are_well_formed
    (c : Connection (EthAddr := EthAddr)) tr w0 cs :
  eval (run cs) (exec (__init__ dpid_to_str c tr) w0) = Ok ()
  ∧ firewall_wf
      (firewall (self (exec (run cs) (exec (__init__ dpid_to_str c tr) w0))))
  ∧ (∀ d s t p,
       eval (CheckRule d s t p)
         (exec (run cs) (exec (__init__ dpid_to_str c tr) w0)) = Ok true
       ↔ is_Some (firewall (self (exec (run cs)
                      (exec (__init__ dpid_to_str c tr) w0)))
                  !! host_pair_key d s t)
         ∨ is_Some (firewall (self (exec (run cs)
                        (exec (__init__ dpid_to_str c tr) w0)))
                    !! dest_service_key d t p))
  ∧ (forallb (λ c, negb (adds_null_destination c)) cs = true →
     no_port_zero_service
       (firewall (self (exec (run cs)
                          (exec (__init__ dpid_to_str c tr) w0))))).
Proof.
  set (w := exec (__init__ dpid_to_str c tr) w0).
  destruct (run_calls_steps cs w) as (w' & E & _ & _ & W & Z0).
  assert (Ex : exec (run cs) w = w') by (unfold exec; by rewrite E).
  rewrite Ex. unfold eval at 1. rewrite E. cbn.
  assert (Hwf : firewall_wf (firewall (self w'))) by apply W, init_wf.
  split; [done|]. split; [done|]. split.
  - intros. by apply CheckRule_blocks_iff.
  - intros Hcs. apply Z0; [done|]. apply init_no_port_zero.
Qed.

(** X22. No sequence of calls changes the configuration of a session:
    the dpid and the connect time of its connection, the transparent
    flag and [_flood_delay] stay as they were, and a hold-down flag that
    is set stays set. *)
Theorem calls_keep_the_configuration cs w :
  dpid (connection (self (exec (run cs) w))) = dpid (connection (self w))
  ∧ connect_time (connection (self (exec (run cs) w)))
    = connect_time (connection (self w))
  ∧ transparent (self (exec (run cs) w)) = transparent (self w)
  ∧ _flood_delay (exec (run cs) w) = _flood_delay w
  ∧ (hold_down_expired (self w) = true →
     hold_down_expired (self (exec (run cs) w)) = true).
Proof.
  destruct (run_calls_steps cs w)
    as (w' & E & (A1 & A2 & A3 & A4 & A5 & _) & _).
  unfold exec. rewrite E. cbn. done.
Qed.

(** X23. A sequence of calls only extends what the session has sent and
    logged: the queue of the connection grows by at most one message per
    packet-in, and by none for the firewall methods; the log grows; no
    address leaves the learning table; and the firewall table is
    untouched unless [AddRule] or [DeleteRule] is called. *)
Theorem calls_only_extend_the_traces cs w :
  (∃ ls, sent (connection (self (exec (run cs) w)))
         = sent (connection (self w)) ++ ls
         ∧ (length ls ≤ length (List.filter is_PacketIn cs))%nat)
  ∧ (∃ ll, log (exec (run cs) w) = log w ++ ll)
  ∧ dom (macToPort (self w)) ⊆ dom (macToPort (self (exec (run cs) w)))
  ∧ (forallb (λ c, negb (writes_firewall c)) cs = true →
     firewall (self (exec (run cs) w)) = firewall (self w)).
Proof.
  destruct (run_calls_steps cs w)
    as (w' & E & (_ & _ & _ & _ & _ & A6 & A7 & A8) & F & _).
  unfold exec. rewrite E. cbn. done.
Qed.

(** X24. The learning table follows a host: after two packet-ins with
    the same source address the table is the initial one with that
    address mapped to the ingress port of the second. *)
Theorem learning_table_follows_the_host event1 t1 event2 t2 w :
  src (parsed event2) = src (parsed event1) →
  macToPort (self (exec (run [Call_PacketIn event1 t1; Call_PacketIn event2 t2])
                     w))
  = <[src (parsed event2) := port event2]> (macToPort (self w)).
Proof.
  intros Hs. unfold exec. cbn. run_monad.
  destruct (handle_PacketIn_run is_multicast isBridgeFiltered LLDP_TYPE
              dpid_to_str event1 t1 w) as (ls1 & ll1 & b1 & E1 & _).
  rewrite E1.
  match goal with |- context [handle event2 t2 ?x] =>
    destruct (handle_PacketIn_run is_multicast isBridgeFiltered LLDP_TYPE
                dpid_to_str event2 t2 x) as (ls2 & ll2 & b2 & E2 & _);
    rewrite E2 end.
  cbn. rewrite Hs. apply insert_insert_eq.
Qed.

(** X25. [launch] accepts the hold-down exactly when it is a number that
    is not negative, and then stores it in [_flood_delay] and creates the
    component with the given mode; otherwise it raises the
    [RuntimeError].  The global is assigned before the value is tested:
    a negative number is rejected but stays in [_flood_delay].  The
    session and the log are not touched. *)
Theorem launch_checks_the_hold_down tr hold_down w :
  (∀ n, hold_down = Some n → 0 <= n →
        launch tr hold_down w
        = (inr {| l2_transparent := tr |},
           {| self := self w; _flood_delay := n; log := log w |}))
  ∧ (hold_down = None ∨ (∃ n, hold_down = Some n ∧ n < 0)
     ↔ fst (launch tr hold_down w)
       = inl (RuntimeError "Expected hold-down to be a number"))
  ∧ (∀ n, hold_down = Some n → _flood_delay (snd (launch tr hold_down w)) = n)
  ∧ (hold_down = None → snd (launch tr hold_down w) = w)
  ∧ self (snd (launch tr hold_down w)) = self w
  ∧ log (snd (launch tr hold_down w)) = log w.
Proof.
  unfold launch. destruct hold_down as [n|].
  - destruct (decide (n >= 0)) as [Hn|Hn].
    + rewrite bool_decide_eq_true_2 by done. cbn.
      split; [by intros m [= <-] _|].
      split; [split; [intros [[=]|(m & [= <-] & ?)]; lia | intros [=]]|].
      split; [by intros m [= <-]|]. split; [intros [=]|]. done.
    + rewrite bool_decide_eq_false_2 by done. cbn.
      split; [intros m [= <-] ?; lia|].
      split; [split; [done|]; intros _; right; exists n; split; [done|lia]|].
      split; [by intros m [= <-]|]. split; [intros [=]|]. done.
  - cbn. split; [intros m [=]|].
    split; [split; [done|]; intros _; by left|].
    split; [intros m [=]|]. done.
Qed.

(** X26. After a launch with hold-down 0 a session built on a new
    connection has its hold-down flag set from the start, and every
    flood at a clock reading not before the connect time sends the flood
    action and logs no expiry line.  After a launch with a positive
    hold-down the session starts with the flag cleared. *)
Theorem zero_hold_down_floods_at_once
    (c : Connection (EthAddr := EthAddr)) tr w0 n :
  (n = 0 →
   ∀ event time_time message,
     connect_time c <= time_time →
     flood event time_time message
       (exec (_handle_ConnectionUp dpid_to_str {| l2_transparent := tr |} c)
          (snd (launch tr (Some n) w0)))
     = (Ok (),
        emit [PacketOut {| po_actions := [ofp_action_output OFPP_FLOOD];
                           po_data := Some (ofp event);
                           po_buffer_id := None;
                           po_in_port := Some (port event) |}]
          match message with Some m => [(DEBUG, m)] | None => [] end
          (exec (_handle_ConnectionUp dpid_to_str {| l2_transparent := tr |} c)
             (snd (launch tr (Some n) w0)))))
  ∧ (0 < n →
     hold_down_expired
       (self (exec (_handle_ConnectionUp dpid_to_str
                      {| l2_transparent := tr |} c)
                (snd (launch tr (Some n) w0)))) = false).
Proof.
  set (w1 := snd (launch tr (Some n) w0)).
  assert (D : _flood_delay w1 = n).
  { unfold w1, launch. by case_bool_decide. }
  set (w2 := add_log [(DEBUG, "Connection %s")] w1).
  assert (D2 : _flood_delay w2 = n) by exact D.
  assert (E : exec (_handle_ConnectionUp dpid_to_str
                      {| l2_transparent := tr |} c) w1
              = exec (__init__ dpid_to_str c tr) w2).
  { unfold _handle_ConnectionUp, exec. run_monad. done. }
  rewrite E.
  destruct (new_session_state_aux c tr w2) as (S0 & F0).
  split.
  - intros -> event time_time message Ht.
    rewrite flood_run. unfold flood_elapsed. rewrite S0, F0, D2. cbn.
    rewrite bool_decide_eq_true_2 by lia. cbn.
    apply f_equal.
    rewrite <- (set_hold_down_expired_id (exec (__init__ dpid_to_str c tr) w2))
      at 2.
    by rewrite S0.
  - intros Hn. rewrite S0, D2. cbn. rewrite bool_decide_eq_false_2; [done|].
    lia.
Qed.

End Session_properties.

(** ** The further properties at the concrete session *)

Lemma DeleteRule_missing_key_witness :
  firewall (self (Demo.fresh 0))
    !! rule_key "s1" (VAddr Demo.h9) Demo.h4 443 = None
  ∧ DeleteRule "s1" (VAddr Demo.h9) Demo.h4 443 (Demo.fresh 0)
    = (Ok (), add_log [(ERROR, "Cannot find Rule %s -> %s,%s in %s")]
                (Demo.fresh 0)).
Proof.
  assert (E : firewall (self (Demo.fresh 0))
              !! rule_key "s1" (VAddr Demo.h9) Demo.h4 443 = None)
    by (vm_compute; reflexivity).
  split; [exact E|].
  exact (DeleteRule_missing_key "s1" (VAddr Demo.h9) Demo.h4 443
           (Demo.fresh 0) E).
Defined.

Lemma rule_methods_write_one_key_witness :
  host_pair_key "s1" (VAddr Demo.h1) Demo.h4
    ≠ rule_key "s1" (VInt 0) Demo.h3 80
  ∧ firewall (self (exec (DeleteRule "s1" (VInt 0) Demo.h3 80) (Demo.fresh 0)))
      !! host_pair_key "s1" (VAddr Demo.h1) Demo.h4
    = firewall (self (Demo.fresh 0)) !! host_pair_key "s1" (VAddr Demo.h1) Demo.h4.
Proof.
  assert (Hne : host_pair_key "s1" (VAddr Demo.h1) Demo.h4
                ≠ rule_key "s1" (VInt 0) Demo.h3 80) by discriminate.
  split; [exact Hne|].
  exact (proj2 (proj2 (proj2
    (rule_methods_write_one_key "s1" (VInt 0) Demo.h3 80 true (Demo.fresh 0)))
    _ Hne)).
Defined.

Lemma AddRule_DeleteRule_round_trip_witness :
  firewall (self (Demo.fresh 0)) !! rule_key "s1" (VAddr Demo.h9) Demo.h4 0
    = None
  ∧ firewall (self (exec (DeleteRule "s1" (VAddr Demo.h9) Demo.h4 0)
                      (exec (AddRule "s1" (VAddr Demo.h9) Demo.h4 0 true)
                         (Demo.fresh 0))))
    = firewall (self (Demo.fresh 0)).
Proof.
  assert (E : firewall (self (Demo.fresh 0))
              !! rule_key "s1" (VAddr Demo.h9) Demo.h4 0 = None)
    by (vm_compute; reflexivity).
  split; [exact E|].
  exact (proj1 (AddRule_DeleteRule_round_trip "s1" (VAddr Demo.h9) Demo.h4 0
                  true (Demo.fresh 0)) E).
Defined.

Lemma rule_order_is_irrelevant_witness :
  rule_key "s1" (VAddr Demo.h9) Demo.h4 0 ≠ rule_key "s1" (VInt 0) Demo.h3 80
  ∧ firewall (self (exec (DeleteRule "s1" (VInt 0) Demo.h3 80)
                      (exec (AddRule "s1" (VAddr Demo.h9) Demo.h4 0 true)
                         (Demo.fresh 0))))
    = firewall (self (exec (AddRule "s1" (VAddr Demo.h9) Demo.h4 0 true)
                        (exec (DeleteRule "s1" (VInt 0) Demo.h3 80)
                           (Demo.fresh 0)))).
Proof.
  assert (Hne : rule_key "s1" (VAddr Demo.h9) Demo.h4 0
                ≠ rule_key "s1" (VInt 0) Demo.h3 80) by discriminate.
  split; [exact Hne|].
  exact (proj2 (rule_order_is_irrelevant "s1" (VAddr Demo.h9) Demo.h4 0 true
                  "s1" (VInt 0) Demo.h3 80 true (Demo.fresh 0)) Hne).
Defined.

Lemma rules_are_scoped_by_switch_witness :
  "s1" ≠ "s2"
  ∧ eval (CheckRule "s1" (VAddr Demo.h9) Demo.h4 22)
      (exec (AddRule "s2" (VAddr Demo.h9) Demo.h4 0 true) (Demo.fresh 0))
    = eval (CheckRule "s1" (VAddr Demo.h9) Demo.h4 22) (Demo.fresh 0).
Proof.
  assert (Hne : "s1" ≠ "s2") by discriminate.
  split; [exact Hne|].
  exact (proj1 (rules_are_scoped_by_switch "s2" (VAddr Demo.h9) Demo.h4 0 true
                  "s1" (VAddr Demo.h9) Demo.h4 22 (Demo.fresh 0) Hne)).
Defined.

Lemma AddRule_only_blocks_DeleteRule_only_allows_witness :
  firewall_wf (firewall (self (Demo.fresh 0)))
  ∧ (eval (CheckRule "s1" (VAddr Demo.h9) Demo.h3 80)
       (exec (DeleteRule "s1" (VAddr Demo.h1) Demo.h4 0) (Demo.fresh 0))
     = Ok true →
     eval (CheckRule "s1" (VAddr Demo.h9) Demo.h3 80) (Demo.fresh 0) = Ok true).
Proof.
  pose proof (init_wf Demo.dpid_str Demo.conn false (Demo.blank 0)) as Hwf.
  split; [exact Hwf|].
  exact (proj2 (AddRule_only_blocks_DeleteRule_only_allows
                  "s1" (VAddr Demo.h1) Demo.h4 0 true
                  "s1" (VAddr Demo.h9) Demo.h3 80 (Demo.fresh 0) Hwf)).
Defined.

Lemma host_pair_rule_is_directional_witness :
  firewall (self (Demo.blank 0)) = ∅
  ∧ Demo.h1 ≠ Demo.h4
  ∧ (22 ≠ 0)
  ∧ eval (CheckRule "s1" (VAddr Demo.h1) Demo.h4 22)
      (exec (AddRule "s1" (VAddr Demo.h1) Demo.h4 0 true) (Demo.blank 0))
    = Ok true
  ∧ eval (CheckRule "s1" (VAddr Demo.h4) Demo.h1 22)
      (exec (AddRule "s1" (VAddr Demo.h1) Demo.h4 0 true) (Demo.blank 0))
    = Ok false.
Proof.
  assert (He : firewall (self (Demo.blank 0)) = ∅) by reflexivity.
  assert (Hne : Demo.h1 ≠ Demo.h4) by (vm_compute; discriminate).
  assert (Hp : 22 ≠ 0) by lia.
  split; [exact He|]. split; [exact Hne|]. split; [exact Hp|].
  destruct (host_pair_rule_is_directional "s1" Demo.h1 Demo.h4 true 22
              (Demo.blank 0) He Hne) as (A & B).
  exact (conj A (proj2 B (or_intror Hp))).
Defined.

Lemma reachable_sessions_are_well_formed_witness :
  forallb (λ c, negb (adds_null_destination c))
    [Call_AddRule "s1" (VAddr Demo.h9) Demo.h4 0 true;
     Call_PacketIn Demo.arp_event 100] = true
  ∧ no_port_zero_service
      (firewall (self
         (exec (run_calls Demo.mac_is_multicast Demo.mac_isBridgeFiltered
                  Demo.lldp Demo.dpid_str
                  [Call_AddRule "s1" (VAddr Demo.h9) Demo.h4 0 true;
                   Call_PacketIn Demo.arp_event 100])
            (Demo.fresh 0)))).
Proof.
  assert (Hcs : forallb (λ c, negb (adds_null_destination c))
                  [Call_AddRule "s1" (VAddr Demo.h9) Demo.h4 0 true;
                   Call_PacketIn Demo.arp_event 100] = true)
    by (vm_compute; reflexivity).
  split; [exact Hcs|].
  exact (proj2 (proj2 (proj2
    (reachable_sessions_are_well_formed Demo.mac_is_multicast
       Demo.mac_isBridgeFiltered Demo.lldp Demo.dpid_str Demo.conn false
       (Demo.blank 0)
       [Call_AddRule "s1" (VAddr Demo.h9) Demo.h4 0 true;
        Call_PacketIn Demo.arp_event 100]))) Hcs).
Defined.

Lemma dest_service_rule_matches_only_its_port_witness :
  firewall (self (Demo.blank 0)) = ∅
  ∧ (80 ≠ 0)
  ∧ (eval (CheckRule "s1" (VAddr Demo.h9) Demo.h3 80)
       (exec (AddRule "s1" (VInt 0) Demo.h3 80 true) (Demo.blank 0))
     = Ok true
     ↔ "s1" = "s1" ∧ Demo.h3 = Demo.h3 ∧ 80 = 80).
Proof.
  assert (He : firewall (self (Demo.blank 0)) = ∅) by reflexivity.
  assert (Hp : 80 ≠ 0) by lia.
  split; [exact He|]. split; [exact Hp|].
  exact (dest_service_rule_matches_only_its_port "s1" Demo.h3 80 true
           "s1" Demo.h9 Demo.h3 80 (Demo.blank 0) He Hp).
Defined.

Lemma port_zero_lookup_reads_host_pair_only_witness :
  firewall_wf (firewall (self (Demo.fresh 0)))
  ∧ no_port_zero_service (firewall (self (Demo.fresh 0)))
  ∧ eval (CheckRule "s1" (VAddr Demo.h1) Demo.h4 0)
      (exec (DeleteRule "s1" (VAddr Demo.h1) Demo.h4 0) (Demo.fresh 0))
    = Ok false.
Proof.
  pose proof (init_wf Demo.dpid_str Demo.conn false (Demo.blank 0)) as Hwf.
  pose proof (init_no_port_zero Demo.dpid_str Demo.conn false (Demo.blank 0))
    as Hz.
  split; [exact Hwf|]. split; [exact Hz|].
  exact (proj2 (port_zero_lookup_reads_host_pair_only "s1" (VAddr Demo.h1)
                  Demo.h4 (Demo.fresh 0) Hwf Hz)).
Defined.

Lemma ipv6_is_always_dropped_witness :
  next (parsed Traffic.ipv6_event) = ipv6
  ∧ Demo.handle Traffic.ipv6_event 100 (Demo.fresh 0)
    = (Ok (), emit (discard_buffer Traffic.ipv6_event) []
                (learn Traffic.ipv6_event (Demo.fresh 0))).
Proof.
  assert (Hn : next (parsed Traffic.ipv6_event) = ipv6) by reflexivity.
  split; [exact Hn|].
  exact (ipv6_is_always_dropped Demo.mac_is_multicast Demo.mac_isBridgeFiltered
           Demo.lldp Demo.dpid_str Traffic.ipv6_event 100 (Demo.fresh 0) Hn).
Defined.

Lemma blocked_ipv4_is_dropped_witness :
  next (parsed Traffic.tcp_blocked_event) = ipv4 Demo.h1 Demo.h4 (Some 12345)
  ∧ eval (CheckRule "s1" (VAddr Demo.h1) Demo.h4 12345) (Demo.fresh 0)
    = Ok true
  ∧ ∃ ll, Demo.handle Traffic.tcp_blocked_event 100 (Demo.fresh 0)
          = (Ok (), emit (discard_buffer Traffic.tcp_blocked_event) ll
                      (learn Traffic.tcp_blocked_event (Demo.fresh 0))).
Proof.
  assert (Hn : next (parsed Traffic.tcp_blocked_event)
               = ipv4 Demo.h1 Demo.h4 (Some 12345)) by reflexivity.
  assert (Hb : eval (CheckRule "s1" (VAddr Demo.h1) Demo.h4 12345)
                 (Demo.fresh 0) = Ok true) by (vm_compute; reflexivity).
  split; [exact Hn|]. split; [exact Hb|].
  exact (blocked_ipv4_is_dropped Demo.mac_is_multicast
           Demo.mac_isBridgeFiltered Demo.lldp Demo.dpid_str
           Traffic.tcp_blocked_event 100 (Demo.fresh 0)
           Demo.h1 Demo.h4 (Some 12345) Hn Hb).
Defined.


Lemma unknown_or_multicast_is_flooded_witness :
  firewall_verdict Demo.arp_event "s1" (Demo.fresh 0) = Ok false
  ∧ link_local_gate Demo.mac_isBridgeFiltered Demo.lldp Demo.arp_event
      (Demo.fresh 0) = false
  ∧ <[Demo.macA := 1]> (macToPort (self (Demo.fresh 0))) !! Demo.macB = None
  ∧ ∃ ll,
      Demo.handle Demo.arp_event 100 (Demo.fresh 0)
      = (Ok (),
         emit [PacketOut
                 {| po_actions := if flood_elapsed 100 (Demo.fresh 0)
                                  then [ofp_action_output OFPP_FLOOD] else [];
                    po_data := Some (ofp Demo.arp_event);
                    po_buffer_id := None;
                    po_in_port := Some 1 |}] ll
           (set_self
              (set_hold_down_expired
                 (hold_down_expired (self (Demo.fresh 0))
                  || flood_elapsed 100 (Demo.fresh 0)))
              (learn Demo.arp_event (Demo.fresh 0)))).
Proof.
  assert (Hv : firewall_verdict Demo.arp_event "s1" (Demo.fresh 0) = Ok false)
    by reflexivity.
  assert (Hg : link_local_gate Demo.mac_isBridgeFiltered Demo.lldp
                 Demo.arp_event (Demo.fresh 0) = false)
    by (vm_compute; reflexivity).
  assert (Hd : <[Demo.macA := 1]> (macToPort (self (Demo.fresh 0)))
               !! Demo.macB = None) by (vm_compute; reflexivity).
  split; [exact Hv|]. split; [exact Hg|]. split; [exact Hd|].
  exact (unknown_or_multicast_is_flooded Demo.mac_is_multicast
           Demo.mac_isBridgeFiltered Demo.lldp Demo.dpid_str
           Demo.arp_event 100 (Demo.fresh 0) Hv Hg (or_intror Hd)).
Defined.

Lemma known_destination_is_forwarded_witness :
  firewall_verdict Demo.arp_event "s1" Traffic.knows_B = Ok false
  ∧ link_local_gate Demo.mac_isBridgeFiltered Demo.lldp Demo.arp_event
      Traffic.knows_B = false
  ∧ Demo.mac_is_multicast Demo.macB = false
  ∧ <[Demo.macA := 1]> (macToPort (self Traffic.knows_B)) !! Demo.macB = Some 2
  ∧ (2 ≠ 1)
  ∧ ∃ ll,
      Demo.handle Demo.arp_event 101 Traffic.knows_B
      = (Ok (),
         emit [FlowMod {| fm_match :=
                            Some (from_packet (parsed Demo.arp_event) (Some 1));
                          fm_idle_timeout := 10;
                          fm_hard_timeout := 30;
                          fm_actions := [ofp_action_output 2];
                          fm_buffer_id := None;
                          fm_data := Some (ofp Demo.arp_event) |}]
           (ll ++ [(DEBUG, "installing flow for %s.%i -> %s.%i")])
           (learn Demo.arp_event Traffic.knows_B)).
Proof.
  assert (Hv : firewall_verdict Demo.arp_event "s1" Traffic.knows_B = Ok false)
    by reflexivity.
  assert (Hg : link_local_gate Demo.mac_isBridgeFiltered Demo.lldp
                 Demo.arp_event Traffic.knows_B = false)
    by (vm_compute; reflexivity).
  assert (Hm : Demo.mac_is_multicast Demo.macB = false) by reflexivity.
  assert (Hd : <[Demo.macA := 1]> (macToPort (self Traffic.knows_B))
               !! Demo.macB = Some 2) by (vm_compute; reflexivity).
  assert (Hp : 2 ≠ 1) by lia.
  split; [exact Hv|]. split; [exact Hg|]. split; [exact Hm|].
  split; [exact Hd|]. split; [exact Hp|].
  exact (known_destination_is_forwarded Demo.mac_is_multicast
           Demo.mac_isBridgeFiltered Demo.lldp Demo.dpid_str
           Demo.arp_event 101 Traffic.knows_B 2 Hv Hg Hm Hd Hp).
Defined.

Lemma self_addressed_frame_is_discarded_witness :
  dst (parsed Demo.hairpin_event) = src (parsed Demo.hairpin_event)
  ∧ firewall_verdict Demo.hairpin_event "s1" (Demo.fresh 0) = Ok false
  ∧ link_local_gate Demo.mac_isBridgeFiltered Demo.lldp Demo.hairpin_event
      (Demo.fresh 0) = false
  ∧ Demo.mac_is_multicast Demo.macA = false
  ∧ ∃ ll,
      Demo.handle Demo.hairpin_event 100 (Demo.fresh 0)
      = (Ok (),
         emit [FlowMod {| fm_match :=
                            Some (from_packet (parsed Demo.hairpin_event) None);
                          fm_idle_timeout := 10;
                          fm_hard_timeout := 10;
                          fm_actions := [];
                          fm_buffer_id := Some 8;
                          fm_data := None |}]
           (ll ++ [(WARNING,
                    "Same port for packet from %s -> %s on %s.%s.  Drop.")])
           (learn Demo.hairpin_event (Demo.fresh 0))).
Proof.
  assert (Hs : dst (parsed Demo.hairpin_event) = src (parsed Demo.hairpin_event))
    by reflexivity.
  assert (Hv : firewall_verdict Demo.hairpin_event "s1" (Demo.fresh 0)
               = Ok false) by reflexivity.
  assert (Hg : link_local_gate Demo.mac_isBridgeFiltered Demo.lldp
                 Demo.hairpin_event (Demo.fresh 0) = false)
    by (vm_compute; reflexivity).
  assert (Hm : Demo.mac_is_multicast Demo.macA = false) by reflexivity.
  split; [exact Hs|]. split; [exact Hv|]. split; [exact Hg|].
  split; [exact Hm|].
  exact (self_addressed_frame_is_discarded Demo.mac_is_multicast
           Demo.mac_isBridgeFiltered Demo.lldp Demo.dpid_str
           Demo.hairpin_event 100 (Demo.fresh 0) Hs Hv Hg Hm).
Defined.

Lemma arp_is_not_filtered_witness :
  (∃ opcode protosrc protodst,
     next (parsed Demo.arp_event) = arp opcode protosrc protodst)
  ∧ Demo.handle Demo.arp_event 100
      (set_self (set_firewall (λ _, ∅)) (Demo.fresh 0))
    = (fst (Demo.handle Demo.arp_event 100 (Demo.fresh 0)),
       set_self (set_firewall (λ _, ∅))
         (snd (Demo.handle Demo.arp_event 100 (Demo.fresh 0)))).
Proof.
  assert (Hn : ∃ opcode protosrc protodst,
            next (parsed Demo.arp_event) = arp opcode protosrc protodst)
    by (by exists 1, Demo.h1, Demo.h4).
  split; [exact Hn|].
  exact (arp_is_not_filtered Demo.mac_is_multicast Demo.mac_isBridgeFiltered
           Demo.lldp Demo.dpid_str Demo.arp_event 100 (λ _, ∅) (Demo.fresh 0)
           (or_introl Hn)).
Defined.

Lemma non_tcp_ipv4_reads_host_pair_only_witness :
  next (parsed Traffic.udp_event) = ipv4 Demo.h9 Demo.h3 None
  ∧ firewall_wf (firewall (self (Demo.fresh 0)))
  ∧ no_port_zero_service (firewall (self (Demo.fresh 0)))
  ∧ (eval (firewall_stage Traffic.udp_event "s1") (Demo.fresh 0) = Ok true
     ↔ is_Some (firewall (self (Demo.fresh 0))
                !! host_pair_key "s1" (VAddr Demo.h9) Demo.h3)).
Proof.
  assert (Hn : next (parsed Traffic.udp_event) = ipv4 Demo.h9 Demo.h3 None)
    by reflexivity.
  pose proof (init_wf Demo.dpid_str Demo.conn false (Demo.blank 0)) as Hwf.
  pose proof (init_no_port_zero Demo.dpid_str Demo.conn false (Demo.blank 0))
    as Hz.
  split; [exact Hn|]. split; [exact Hwf|]. split; [exact Hz|].
  exact (non_tcp_ipv4_reads_host_pair_only Traffic.udp_event "s1"
           Demo.h9 Demo.h3 (Demo.fresh 0) Hn Hwf Hz).
Defined.

Lemma calls_keep_the_configuration_witness :
  hold_down_expired (self (Demo.fresh 0)) = true
  ∧ hold_down_expired
      (self (exec (run_calls Demo.mac_is_multicast Demo.mac_isBridgeFiltered
                     Demo.lldp Demo.dpid_str
                     [Call_AddRule "s1" (VAddr Demo.h9) Demo.h4 0 true;
                      Call_PacketIn Demo.arp_event 100])
               (Demo.fresh 0))) = true.
Proof.
  assert (Hh : hold_down_expired (self (Demo.fresh 0)) = true)
    by (vm_compute; reflexivity).
  split; [exact Hh|].
  exact (proj2 (proj2 (proj2 (proj2
    (calls_keep_the_configuration Demo.mac_is_multicast
       Demo.mac_isBridgeFiltered Demo.lldp Demo.dpid_str
       [Call_AddRule "s1" (VAddr Demo.h9) Demo.h4 0 true;
        Call_PacketIn Demo.arp_event 100] (Demo.fresh 0))))) Hh).
Defined.

Lemma calls_only_extend_the_traces_witness :
  forallb (λ c, negb (writes_firewall c))
    [Call_CheckRule "s1" (VAddr Demo.h1) Demo.h4 22;
     Call_PacketIn Demo.arp_event 100] = true
  ∧ firewall
      (self (exec (run_calls Demo.mac_is_multicast Demo.mac_isBridgeFiltered
                     Demo.lldp Demo.dpid_str
                     [Call_CheckRule "s1" (VAddr Demo.h1) Demo.h4 22;
                      Call_PacketIn Demo.arp_event 100])
               (Demo.fresh 0)))
    = firewall (self (Demo.fresh 0)).
Proof.
  assert (Hf : forallb (λ c, negb (writes_firewall c))
                 [Call_CheckRule "s1" (VAddr Demo.h1) Demo.h4 22;
                  Call_PacketIn Demo.arp_event 100] = true) by reflexivity.
  split; [exact Hf|].
  exact (proj2 (proj2 (proj2
    (calls_only_extend_the_traces Demo.mac_is_multicast
       Demo.mac_isBridgeFiltered Demo.lldp Demo.dpid_str
       [Call_CheckRule "s1" (VAddr Demo.h1) Demo.h4 22;
        Call_PacketIn Demo.arp_event 100] (Demo.fresh 0)))) Hf).
Defined.

Lemma learning_table_follows_the_host_witness :
  src (parsed Traffic.moved_event) = src (parsed Demo.arp_event)
  ∧ macToPort
      (self (exec (run_calls Demo.mac_is_multicast Demo.mac_isBridgeFiltered
                     Demo.lldp Demo.dpid_str
                     [Call_PacketIn Demo.arp_event 100;
                      Call_PacketIn Traffic.moved_event 101])
               (Demo.fresh 0)))
    = <[Demo.macA := 3]> (macToPort (self (Demo.fresh 0))).
Proof.
  assert (Hs : src (parsed Traffic.moved_event) = src (parsed Demo.arp_event))
    by reflexivity.
  split; [exact Hs|].
  exact (learning_table_follows_the_host Demo.mac_is_multicast
           Demo.mac_isBridgeFiltered Demo.lldp Demo.dpid_str
           Demo.arp_event 100 Traffic.moved_event 101 (Demo.fresh 0) Hs).
Defined.

Lemma launch_checks_the_hold_down_witness :
  0 <= 5
  ∧ launch true (Some 5) (Demo.blank 0)
    = (inr {| l2_transparent := true |},
       {| self := self (Demo.blank 0); _flood_delay := 5;
          log := log (Demo.blank 0) |})
  ∧ _flood_delay (snd (launch true (Some (-3)) (Demo.blank 0))) = -3.
Proof.
  assert (Hn : 0 <= 5) by lia.
  split; [exact Hn|]. split.
  - exact (proj1 (launch_checks_the_hold_down true (Some 5) (Demo.blank 0))
             5 eq_refl Hn).
  - exact (proj1 (proj2 (proj2
      (launch_checks_the_hold_down true (Some (-3)) (Demo.blank 0))))
      (-3) eq_refl).
Defined.

Lemma zero_hold_down_floods_at_once_witness :
  connect_time Demo.conn <= 100
  ∧ flood Demo.arp_event 100 None
      (exec (Traffic.handle_ConnectionUp {| l2_transparent := false |}
               Demo.conn)
         (snd (launch false (Some 0) (Demo.blank 7))))
    = (Ok (),
       emit [PacketOut {| po_actions := [ofp_action_output OFPP_FLOOD];
                          po_data := Some (ofp Demo.arp_event);
                          po_buffer_id := None;
                          po_in_port := Some 1 |}] []
         (exec (Traffic.handle_ConnectionUp {| l2_transparent := false |}
                  Demo.conn)
            (snd (launch false (Some 0) (Demo.blank 7))))).
Proof.
  assert (Ht : connect_time Demo.conn <= 100) by (vm_compute; discriminate).
  split; [exact Ht|].
  exact (proj1 (zero_hold_down_floods_at_once Demo.dpid_str Demo.conn false
                  (Demo.blank 7) 0) eq_refl Demo.arp_event 100 None Ht).
Defined.
